(** * Question Similarity Detector: the comparison handler and its pipeline

    The repository's Streamlit script [app.py] reads two questions and a
    similarity threshold, guards against blank input, calls
    [helper.query_point_creator], reads the cosine similarity at
    [query[0, 22]] and renders a verdict and three tabs of charts.

    Conventions of this development:
    - a Python [str] is a list of Unicode code points ([pystr]);
    - a numpy [float64] is a real number ([R]): arithmetic is exact, and
      rounding, NaN and infinities are outside the model;
    - Python values that cross the boundary between [app.py] and the helper
      are values of the dynamic type [Py.value]; an operation that can raise
      returns a [Py.result];
    - what the script shows is the list of [App.event]s it emitted, in
      order; a raised exception ends the script and keeps what was shown.

    The module [helper] is not part of the sources; the pipeline behind
    [query_point_creator] is modelled from the specification in the module
    [Helper], every definition of which says so. *)

From Stdlib Require Import String Ascii List Bool Arith NArith ZArith Lia.
From Stdlib Require Import Reals Lra.
Import ListNotations.

Set Warnings "-register-all".

(* ===================================================================== *)
(** ** Python strings *)
(* ===================================================================== *)

Module PyStr.

(** A Python [str]: a sequence of Unicode code points. *)
Definition pystr := list N.

(** The code points of an ASCII literal. *)
Definition of_string (s : string) : pystr :=
  map N_of_ascii (list_ascii_of_string s).

(** [str.isspace] for one code point: the characters [str.strip()] and
    [str.split()] treat as whitespace (U+0009..U+000D, U+001C..U+0020,
    U+0085, U+00A0, U+1680, U+2000..U+200A, U+2028, U+2029, U+202F, U+205F,
    U+3000). *)
Definition isspace (c : N) : bool :=
  ((9 <=? c) && (c <=? 13) || (28 <=? c) && (c <=? 32)
   || (c =? 133) || (c =? 160) || (c =? 5760)
   || (8192 <=? c) && (c <=? 8202)
   || (c =? 8232) || (c =? 8233) || (c =? 8239) || (c =? 8287)
   || (c =? 12288))%N.

(** [s.lstrip()]. *)
Fixpoint lstrip (s : pystr) : pystr :=
  match s with
  | [] => []
  | c :: s' => if isspace c then lstrip s' else s
  end.

(** [s.rstrip()]. *)
Definition rstrip (s : pystr) : pystr := rev (lstrip (rev s)).

(** [s.strip()]. *)
Definition strip (s : pystr) : pystr := rstrip (lstrip s).

(** [s == ""]. *)
Definition is_empty (s : pystr) : bool :=
  match s with [] => true | _ :: _ => false end.

(** [a == b] on strings. *)
Fixpoint eqb (a b : pystr) : bool :=
  match a, b with
  | [], [] => true
  | x :: a', y :: b' => (x =? y)%N && eqb a' b'
  | _, _ => false
  end.

(** [a <= b] on strings: lexicographic on code points. *)
Fixpoint leb (a b : pystr) : bool :=
  match a, b with
  | [], _ => true
  | _ :: _, [] => false
  | x :: a', y :: b' => (x <? y)%N || ((x =? y)%N && leb a' b')
  end.

(** [s.split()]: the maximal runs of non-whitespace characters, in order.
    [cur] is the run being read, reversed. *)
Fixpoint split_from (cur : pystr) (s : pystr) : list pystr :=
  match s with
  | [] => match cur with [] => [] | _ :: _ => [rev cur] end
  | c :: s' =>
      if isspace c
      then match cur with
           | [] => split_from [] s'
           | _ :: _ => rev cur :: split_from [] s'
           end
      else split_from (c :: cur) s'
  end.

Definition split (s : pystr) : list pystr := split_from [] s.

(** [" ".join(l)]. *)
Fixpoint join (l : list pystr) : pystr :=
  match l with
  | [] => []
  | [t] => t
  | t :: l' => t ++ 32%N :: join l'
  end.

End PyStr.

(* ===================================================================== *)
(** ** Python values, exceptions and numpy indexing *)
(* ===================================================================== *)

Module Py.
Import PyStr.

(** The exception classes the script can meet. *)
Inductive exn : Type := TypeError | ValueError | IndexError.

(** The outcome of an operation that may raise. *)
Inductive result (A : Type) : Type :=
| Ok (a : A)
| Raise (e : exn).

Arguments Ok {A} a.
Arguments Raise {A} e.

(** The values exchanged with the helper: a Python float, a numpy scalar
    ([numpy.float64], what the items of a 1-D array are), a string, a tuple,
    and numpy arrays of one and two dimensions (a 2-D array is its list of
    rows). *)
Inductive value : Type :=
| VFloat (x : R)
| VFloat64 (x : R)
| VStr (s : pystr)
| VTuple (items : list value)
| VArray1 (data : list R)
| VArray2 (rows : list (list R)).

(** The items iterating over a value yields, when it is iterable. *)
Definition iterate (v : value) : result (list value) :=
  match v with
  | VFloat _ | VFloat64 _ => Raise TypeError
  | VStr s => Ok (map (fun c => VStr [c]) s)
  | VTuple items => Ok items
  | VArray1 data => Ok (map VFloat64 data)
  | VArray2 rows => Ok (map VArray1 rows)
  end.

(** [a, b = v]: exactly two items, or ValueError. *)
Definition unpack2 (v : value) : result (value * value) :=
  match iterate v with
  | Raise e => Raise e
  | Ok [a; b] => Ok (a, b)
  | Ok _ => Raise ValueError
  end.

(** [data[i]] for a non-negative index into a sequence. *)
Definition index {A : Type} (data : list A) (i : nat) : result A :=
  match nth_error data i with
  | Some x => Ok x
  | None => Raise IndexError
  end.

(** [data[lo:hi]] for non-negative bounds: out-of-range bounds are clipped. *)
Definition slice {A : Type} (data : list A) (lo hi : nat) : list A :=
  firstn (hi - lo) (skipn lo data).


(** [v[i, j]]: only a 2-D array takes two indices; a 1-D array has too many
    indices and a numpy scalar takes none (IndexError), the other values do
    not take a tuple index (TypeError). *)
Definition getitem2 (v : value) (i j : nat) : result R :=
  match v with
  | VArray2 rows =>
      match index rows i with
      | Ok r => index r j
      | Raise e => Raise e
      end
  | VArray1 _ | VFloat64 _ => Raise IndexError
  | VFloat _ | VStr _ | VTuple _ => Raise TypeError
  end.

(** [v[i, lo:hi]]: a 1-D array, here its list of entries. *)
Definition getslice2 (v : value) (i lo hi : nat) : result (list R) :=
  match v with
  | VArray2 rows =>
      match index rows i with
      | Ok r => Ok (slice r lo hi)
      | Raise e => Raise e
      end
  | VArray1 _ | VFloat64 _ => Raise IndexError
  | VFloat _ | VStr _ | VTuple _ => Raise TypeError
  end.

End Py.

(* ===================================================================== *)
(** ** app.py: the results section *)
(* ===================================================================== *)

Module App.
Import PyStr Py.

(** The two message boxes of lines 237-254. *)
Inductive verdict : Type := Duplicates | NotDuplicates.

(** What the script does that a user or the helper can observe, in the order
    it happens: the Streamlit elements it shows, the pause and the call to
    the helper. Texts are given without their HTML markup and emoji glyphs;
    layout containers (columns, tabs' bodies) are not events; a chart or
    table is the event of handing its data to the renderer. *)
Inductive event : Type :=
| Warning (msg : string)
| Spinner (msg : string)
| Sleep (seconds : nat)
| HelperCall (q1 q2 : pystr)
| Markdown (html : string)
| Success (msg : string)
| SimilarityMeter (width : R) (colour_from colour_to : string) (score : R)
| VerdictBox (v : verdict)
| Lottie (height : nat) (key : string)
| Icon
| Tabs (names : list string)
| BarChart (x : list string) (y : list R) (title : string)
| RadarChart (r : list R) (theta : list string) (range_min range_max : R)
| Scatter3d (x y z colour : list R) (query_point : R * R * R)
| Info (msg : string)
| Dataframe (feature : list string) (val : list R)
| Metric (label : string) (val : R) (digits : nat).

(** What [r.json()] gives: it raises, or it returns None (the body is the
    JSON null), or it returns another value. *)
Inductive decoded (J : Type) : Type :=
| JsonError
| JsonNull
| JsonValue (j : J).

Arguments JsonError {J}.
Arguments JsonNull {J}.
Arguments JsonValue {J} j.

(** What [app.py] imports: the helper, numpy's global random generator
    ([rng] is its state), [requests] and the optional Lottie component;
    [json] are the JSON values other than null. *)
Record Env : Type := {
  rng : Type;
  json : Type;
  truthy : json -> bool;
  LOTTIE_AVAILABLE : bool;
  (* requests.get(url): None when it raises, else the status code and what
     r.json() gives *)
  requests_get : string -> option (Z * decoded json);
  (* np.random.normal(loc, scale, size) *)
  random_normal : R -> R -> nat -> rng -> result (list R) * rng;
  (* helper.query_point_creator(q1, q2) *)
  query_point_creator : pystr -> pystr -> result value
}.

Section Script.
Variable env : Env.

(** A run of script code: it reads and advances the random generator, emits
    events, and returns or raises. *)
Definition ui (A : Type) : Type :=
  rng env -> list event * rng env * result A.

Definition ret {A : Type} (a : A) : ui A := fun g => ([], g, Ok a).

Definition bind {A B : Type} (m : ui A) (k : A -> ui B) : ui B :=
  fun g =>
    match m g with
    | (out, g', Ok a) =>
        match k a g' with
        | (out', g'', r) => (out ++ out', g'', r)
        end
    | (out, g', Raise e) => (out, g', Raise e)
    end.

Definition emit (e : event) : ui unit := fun g => ([e], g, Ok tt).

Definition lift {A : Type} (r : result A) : ui A := fun g => ([], g, r).

Definition draw (loc scale : R) (size : nat) : ui (list R) :=
  fun g => match random_normal env loc scale size g with
           | (r, g') => ([], g', r)
           end.

Declare Scope ui_scope.
Delimit Scope ui_scope with ui.
Notation "x <- m ;; k" := (bind m (fun x => k))
  (at level 61, m at next level, right associativity) : ui_scope.
Notation "m ;; k" := (bind m (fun _ => k))
  (at level 61, right associativity) : ui_scope.
Local Open Scope ui_scope.
Local Open Scope string_scope.

(** Lines 22-31: None is Python's None, which the function returns itself
    on every failure and passes on when the body is the JSON null. *)
Definition load_lottieurl (url : string) : option (json env) :=
  if negb (LOTTIE_AVAILABLE env) then None
  else match requests_get env url with
       | None => None
       | Some (status_code, body) =>
           if negb (status_code =? 200)%Z then None
           else match body with
                | JsonValue j => Some j
                | JsonNull => None
                | JsonError => None
                end
       end.

(** Lines 223-234: the meter is [cosine_sim * 100] percent wide, coloured by
    the bands below 0.3, below 0.7 and above; the score is printed with two
    decimals. *)
Definition similarity_meter (cosine_sim : R) : event :=
  SimilarityMeter (cosine_sim * 100)
    (if Rlt_dec cosine_sim 0.3 then "#ff4e50"
     else if Rlt_dec cosine_sim 0.7 then "#ffd452" else "#1cb142")
    (if Rlt_dec cosine_sim 0.3 then "#f9d423"
     else if Rlt_dec cosine_sim 0.7 then "#1cb142" else "#0f9b0f")
    cosine_sim.

(** Lines 237-254: [if cosine_sim > similarity_threshold]. *)
Definition judge (cosine_sim similarity_threshold : R) : verdict :=
  if Rgt_dec cosine_sim similarity_threshold then Duplicates
  else NotDuplicates.

(** Lines 256-265. *)
Definition success_animation : ui unit :=
  if LOTTIE_AVAILABLE env then
    match load_lottieurl
            "https://assets9.lottiefiles.com/packages/lf20_jR229a.json" with
    | Some lottie_success =>
        if truthy env lottie_success
        then emit (Lottie 150 "success_animation")
        else emit Icon
    | None => emit Icon
    end
  else emit Icon.

Definition token_labels : list string :=
  ["Common Word Ratio"; "Word Ratio Max"; "Stop Word Ratio";
   "Stop Word Ratio Max"; "Token Ratio"; "Token Ratio Max";
   "Last Word Match"; "First Word Match"].

Definition fuzzy_labels : list string :=
  ["Fuzz Ratio"; "Partial Ratio"; "Token Sort Ratio"; "Token Set Ratio"].

Definition basic_labels : list string :=
  ["Q1 Length"; "Q2 Length"; "Q1 Word Count"; "Q2 Word Count";
   "Common Words"; "Total Words"; "Common/Total Ratio"].

Definition length_labels : list string :=
  ["Absolute Length Diff"; "Average Token Length";
   "Longest Common Substring Ratio"].

(** Lines 270-309. *)
Definition feature_comparison_tab (query : value) : ui unit :=
  token_features <- lift (getslice2 query 0 7 15) ;;
  fuzzy_features <- lift (getslice2 query 0 18 22) ;;
  emit (BarChart token_labels token_features "Token Features Comparison") ;;
  emit (RadarChart fuzzy_features fuzzy_labels 0 100).

(** Line 323: the distance of each sampled point from the query point. Arrays
    of different lengths do not occur (each has [n_points] entries). *)
Fixpoint distances (x y z : list R) (b0 b1 b2 : R) : list R :=
  match x, y, z with
  | xi :: x', yi :: y', zi :: z' =>
      sqrt ((xi - b0) ^ 2 + (yi - b1) ^ 2 + (zi - b2) ^ 2)
      :: distances x' y' z' b0 b1 b2
  | _, _, _ => []
  end.

(** Lines 311-377; the info box is quoted by its first sentence. *)
Definition visualization_tab (query : value) : ui unit :=
  basic_features <- lift (getslice2 query 0 0 3) ;;
  let n_points := 50%nat in
  b0 <- lift (index basic_features 0) ;;
  x <- draw b0 (b0 * 0.2) n_points ;;
  b1 <- lift (index basic_features 1) ;;
  y <- draw b1 (b1 * 0.2) n_points ;;
  b2 <- lift (index basic_features 2) ;;
  z <- draw b2 (b2 * 0.2) n_points ;;
  emit (Scatter3d x y z (distances x y z b0 b1 b2) (b0, b1, b2)) ;;
  emit (Info ("This 3D visualization shows the feature space with the "
              ++ "current query highlighted in red.")).

(** Lines 379-424. *)
Definition raw_data_tab (query : value) (cosine_sim : R) : ui unit :=
  emit (Markdown "Raw Feature Vector") ;;
  basic_features <- lift (getslice2 query 0 0 7) ;;
  token_features <- lift (getslice2 query 0 7 15) ;;
  length_features <- lift (getslice2 query 0 15 18) ;;
  fuzzy_features <- lift (getslice2 query 0 18 22) ;;
  emit (Markdown "Basic Features") ;;
  emit (Dataframe basic_labels basic_features) ;;
  emit (Markdown "Length Features") ;;
  emit (Dataframe length_labels length_features) ;;
  emit (Markdown "Token Features") ;;
  emit (Dataframe token_labels token_features) ;;
  emit (Markdown "Fuzzy Features") ;;
  emit (Dataframe fuzzy_labels fuzzy_features) ;;
  emit (Markdown "Cosine Similarity") ;;
  emit (Metric "Similarity Score" cosine_sim 4).

(** Lines 256-426: the animation, the three tabs and the closing markup. *)
Definition details (query : value) (cosine_sim : R) : ui unit :=
  success_animation ;;
  emit (Tabs ["Feature Comparison"; "3D Visualization"; "Raw Data"]) ;;
  feature_comparison_tab query ;;
  visualization_tab query ;;
  raw_data_tab query cosine_sim ;;
  emit (Markdown "/result-card").

(** Lines 202-426: the branch taken when both questions are present. *)
Definition analyze (q1 q2 : pystr) (similarity_threshold : R) : ui unit :=
  emit (Spinner "Analyzing questions...") ;;
  emit (Sleep 1) ;;
  emit (HelperCall q1 q2) ;;
  returned <- lift (query_point_creator env q1 q2) ;;
  unpacked <- lift (unpack2 returned) ;;
  let query := fst unpacked in
  cosine_sim <- lift (getitem2 query 0 22) ;;
  emit (Markdown "result-card") ;;
  emit (Success "Analysis completed successfully!") ;;
  emit (Markdown "Similarity Score") ;;
  emit (similarity_meter cosine_sim) ;;
  emit (VerdictBox (judge cosine_sim similarity_threshold)) ;;
  details query cosine_sim.

(** Lines 198-426: the results section of the script. *)
Definition results_section (compare_button : bool) (q1 q2 : pystr)
    (similarity_threshold : R) : ui unit :=
  if compare_button then
    if is_empty (strip q1) || is_empty (strip q2)
    then emit (Warning "Please enter both questions before comparing.")
    else analyze q1 q2 similarity_threshold
  else ret tt.

End Script.

(** The events of a run, its exception if any, and the calls to the helper
    among the events. *)
Definition shown {G A : Type} (run : list event * G * result A) : list event :=
  fst (fst run).

Definition raised {G A : Type} (run : list event * G * result A)
  : option exn :=
  match snd run with Ok _ => None | Raise e => Some e end.

(** What one event contributes to each reading of a run. *)
Definition call_of (e : event) : list (pystr * pystr) :=
  match e with HelperCall q1 q2 => [(q1, q2)] | _ => [] end.

Definition verdict_of (e : event) : list verdict :=
  match e with VerdictBox v => [v] | _ => [] end.

Definition score_of (e : event) : list R :=
  match e with SimilarityMeter _ _ _ s => [s] | _ => [] end.

Definition meter_width_of (e : event) : list R :=
  match e with SimilarityMeter w _ _ _ => [w] | _ => [] end.

Definition dataframe_of (e : event) : list (list string * list R) :=
  match e with Dataframe feature val => [(feature, val)] | _ => [] end.

(** The arguments of the calls to [helper.query_point_creator], the
    verdicts, the similarity scores and the tables of the raw-data tab that
    a run showed, each in order. *)
Definition helper_calls (out : list event) : list (pystr * pystr) :=
  flat_map call_of out.

Definition verdicts (out : list event) : list verdict :=
  flat_map verdict_of out.

Definition scores (out : list event) : list R :=
  flat_map score_of out.

Definition meter_widths (out : list event) : list R :=
  flat_map meter_width_of out.

Definition dataframes (out : list event) : list (list string * list R) :=
  flat_map dataframe_of out.

End App.

(* ===================================================================== *)
(** ** helper: the feature pipeline, from the specification *)
(* ===================================================================== *)

Module Helper.
Import PyStr Py.

(** Equality of tokens is decidable. *)
Definition pystr_eq_dec : forall a b : pystr, {a = b} + {a <> b} :=
  list_eq_dec N.eq_dec.

(** Modelled from the spec: helper.py is missing, and with it the lookup
    tables and fitted state the spec treats as configuration (sections 3,
    4.1, 4.2 and 9): case folding ([lower]), the table-driven rewriting
    stages 4.1(b)-(f) ([substitute]), the closed stop-word list, the frozen
    vocabulary (the token at position [i] owns column [i]), the small
    positive [eps] added to denominators, and the message returned beside
    the vector. *)
Record Config : Type := {
  lower : pystr -> pystr;
  substitute : pystr -> pystr;
  stop_words : list pystr;
  vocabulary : list pystr;
  eps : R;
  eps_pos : (0 < eps)%R;
  result_message : pystr -> pystr -> pystr
}.

(** Modelled from the spec: helper.py is missing; section 3's
    NormalizedQuestion, the normalized text with its token sequence. *)
Record NormalizedQuestion : Type := {
  text : pystr;
  tokens : list pystr
}.

(** Modelled from the spec: helper.py is missing; section 4.1: fold to
    lowercase, apply the table-driven stages, collapse repeated whitespace
    and trim; the tokens are the whitespace-separated words. *)
Definition normalize (cfg : Config) (question : pystr) : NormalizedQuestion :=
  let words := split (substitute cfg (lower cfg question)) in
  {| text := join words; tokens := words |}.

(** *** 4.2 Lexical features *)

(** Modelled from the spec: helper.py is missing; section 4.2: the set of a
    token sequence, duplicates collapsed. *)
Definition token_set (l : list pystr) : list pystr := nodup pystr_eq_dec l.

(** Modelled from the spec: helper.py is missing; [t in l]. *)
Definition member (t : pystr) (l : list pystr) : bool :=
  existsb (eqb t) l.

(** Modelled from the spec: helper.py is missing; section 4.2: the size of
    the intersection of the two token sets. *)
Definition common_count (a b : list pystr) : nat :=
  length (filter (fun t => member t (token_set b)) (token_set a)).

(** Modelled from the spec: helper.py is missing; section 4.2: a ratio with
    [eps] added to its denominator. *)
Definition ratio_eps (cfg : Config) (num den : nat) : R :=
  (INR num / (INR den + eps cfg))%R.

(** Modelled from the spec: helper.py is missing; section 4.2, the seven
    basic features: the character length of each normalized question, the
    word count of each, the common words (case-insensitive), the total word
    count and the common-to-total ratio. *)
Definition basic_features (cfg : Config) (q1 q2 : NormalizedQuestion)
  : list R :=
  let common :=
    common_count (map (lower cfg) (tokens q1)) (map (lower cfg) (tokens q2)) in
  let total := (length (tokens q1) + length (tokens q2))%nat in
  [INR (length (text q1)); INR (length (text q2));
   INR (length (tokens q1)); INR (length (tokens q2));
   INR common; INR total; ratio_eps cfg common total].

(** Modelled from the spec: helper.py is missing; section 4.2: whether a
    token is on the stop-word list. *)
Definition is_stop (cfg : Config) (t : pystr) : bool :=
  member t (stop_words cfg).

(** Modelled from the spec: helper.py is missing; sections 4.2 and 9: 1
    when both sequences end (begin) with the same token, or both are empty;
    else 0. *)
Definition same_token (a b : option pystr) : R :=
  match a, b with
  | None, None => 1%R
  | Some x, Some y => if eqb x y then 1%R else 0%R
  | _, _ => 0%R
  end.

(** Modelled from the spec: helper.py is missing; the first and the last
    token of a sequence, when it has one. *)
Definition first_token (l : list pystr) : option pystr := hd_error l.

Definition last_token (l : list pystr) : option pystr := hd_error (rev l).

(** Modelled from the spec: helper.py is missing; section 4.2, the eight
    token features: common non-stop-word, common stop-word and common token
    counts, each over the smaller and over the larger token count, then
    last-token and first-token match (section 9: on normalized tokens, empty
    against empty counts as a match). *)
Definition token_features (cfg : Config) (q1 q2 : NormalizedQuestion)
  : list R :=
  let t1 := tokens q1 in
  let t2 := tokens q2 in
  let non_stop := fun t => negb (is_stop cfg t) in
  let common_word := common_count (filter non_stop t1) (filter non_stop t2) in
  let common_stop :=
    common_count (filter (is_stop cfg) t1) (filter (is_stop cfg) t2) in
  let common_token := common_count t1 t2 in
  let lo := Nat.min (length t1) (length t2) in
  let hi := Nat.max (length t1) (length t2) in
  [ratio_eps cfg common_word lo; ratio_eps cfg common_word hi;
   ratio_eps cfg common_stop lo; ratio_eps cfg common_stop hi;
   ratio_eps cfg common_token lo; ratio_eps cfg common_token hi;
   same_token (last_token t1) (last_token t2);
   same_token (first_token t1) (first_token t2)].

(** Modelled from the spec: helper.py is missing; section 4.2: one row of
    the longest-common-substring table over tokens: the entry for
    [(a, b_j)] is one more than the entry diagonally above when the tokens
    are equal, else 0. [diag] is the entry diagonally above the head. *)
Fixpoint lcs_row (a : pystr) (b : list pystr) (diag : nat) (above : list nat)
  : list nat :=
  match b, above with
  | bj :: b', u :: above' =>
      (if eqb a bj then S diag else 0%nat) :: lcs_row a b' u above'
  | _, _ => []
  end.

(** Modelled from the spec: helper.py is missing; section 4.2: the rows of
    the table for [a], top down, keeping the largest entry. *)
Fixpoint lcs_rows (a b : list pystr) (above : list nat) (best : nat) : nat :=
  match a with
  | [] => best
  | ai :: a' =>
      let row := lcs_row ai b 0 above in
      lcs_rows a' b row (Nat.max best (list_max row))
  end.

(** Modelled from the spec: helper.py is missing; section 4.2: the length of
    the longest common contiguous run of tokens, by dynamic programming. *)
Definition longest_common_run (a b : list pystr) : nat :=
  lcs_rows a b (repeat 0%nat (length b)) 0.

(** Modelled from the spec: helper.py is missing; section 4.2: the sum of
    the lengths of the tokens. *)
Definition total_length (l : list pystr) : nat :=
  fold_right (fun t n => (length t + n)%nat) 0%nat l.

(** Modelled from the spec: helper.py is missing; section 4.2, the three
    length features: the absolute difference of the token counts, the mean
    token length across both questions, and the longest common run of tokens
    over the combined token count. *)
Definition length_features (cfg : Config) (q1 q2 : NormalizedQuestion)
  : list R :=
  let n1 := length (tokens q1) in
  let n2 := length (tokens q2) in
  [INR (Nat.max n1 n2 - Nat.min n1 n2);
   ratio_eps cfg (total_length (tokens q1) + total_length (tokens q2))
     (n1 + n2);
   ratio_eps cfg (longest_common_run (tokens q1) (tokens q2)) (n1 + n2)].

(** *** 4.3 Fuzzy features *)

(** Modelled from the spec: helper.py is missing; section 4.3: one row of
    the edit-distance table (insertions and deletions of single
    characters): the entry for [(a, b_j)] is the entry diagonally above when
    the characters are equal, else one more than the smaller of the entries
    above and to the left. *)
Fixpoint distance_row (a : N) (b : pystr) (diag left : nat)
    (above : list nat) : list nat :=
  match b, above with
  | bj :: b', u :: above' =>
      let d := if (a =? bj)%N then diag else S (Nat.min u left) in
      d :: distance_row a b' u d above'
  | _, _ => []
  end.

(** Modelled from the spec: helper.py is missing; section 4.3: the rows
    for the characters of [a], top down; [row] is the row above
    ([length b + 1] entries). *)
Fixpoint distance_rows (a b : pystr) (row : list nat) : list nat :=
  match a with
  | [] => row
  | ai :: a' =>
      match row with
      | [] => []
      | r0 :: above =>
          distance_rows a' b (S r0 :: distance_row ai b r0 (S r0) above)
      end
  end.

(** Modelled from the spec: helper.py is missing; section 4.3: the number
    of single-character insertions and deletions that turn [a] into [b],
    the last entry of the last row. *)
Definition edit_distance (a b : pystr) : nat :=
  last (distance_rows a b (seq 0 (S (length b)))) 0%nat.

(** Modelled from the spec: helper.py is missing; section 4.3 and the
    glossary: the edit-distance ratio on the percentage scale,
    [100 * (len - distance) / len] for [len] the sum of the two lengths,
    rounded to the nearest integer; 0 when a string is empty. *)
Definition ratio (a b : pystr) : Z :=
  if is_empty a || is_empty b then 0%Z
  else
    let len := Z.of_nat (length a + length b) in
    let d := Z.of_nat (edit_distance a b) in
    ((200 * (len - d) + len) / (2 * len))%Z.

(** Modelled from the spec: helper.py is missing; section 4.3: the
    windows of [long] that are [m] characters wide. *)
Definition windows (m : nat) (long : pystr) : list pystr :=
  map (fun i => slice long i (i + m)) (seq 0 (S (length long - m))).

(** Modelled from the spec: helper.py is missing; section 4.3: the best
    ratio of the shorter string against a window of the longer one. *)
Definition partial_ratio (a b : pystr) : Z :=
  let short := if (length a <=? length b)%nat then a else b in
  let long := if (length a <=? length b)%nat then b else a in
  fold_right Z.max 0%Z (map (ratio short) (windows (length short) long)).

(** Modelled from the spec: helper.py is missing; section 4.3: insertion
    into an alphabetically sorted list. *)
Fixpoint insert (t : pystr) (l : list pystr) : list pystr :=
  match l with
  | [] => [t]
  | u :: l' => if leb t u then t :: l else u :: insert t l'
  end.

(** Modelled from the spec: helper.py is missing; section 4.3: the tokens
    sorted alphabetically. *)
Definition sorted (l : list pystr) : list pystr := fold_right insert [] l.

(** Modelled from the spec: helper.py is missing; section 4.3: the ratio
    after sorting each string's tokens alphabetically and rejoining. *)
Definition token_sort_ratio (a b : pystr) : Z :=
  ratio (join (sorted (split a))) (join (sorted (split b))).

(** Modelled from the spec: helper.py is missing; section 4.3: the ratio
    after forming the intersection and the two differences of the token
    sets: the best of the three comparisons between the sorted intersection
    and the intersection followed by each difference. *)
Definition token_set_ratio (a b : pystr) : Z :=
  let t1 := token_set (split a) in
  let t2 := token_set (split b) in
  let both := join (sorted (filter (fun t => member t t2) t1)) in
  let only1 := join (sorted (filter (fun t => negb (member t t2)) t1)) in
  let only2 := join (sorted (filter (fun t => negb (member t t1)) t2)) in
  let combined1 := strip (both ++ 32%N :: only1) in
  let combined2 := strip (both ++ 32%N :: only2) in
  Z.max (ratio both combined1)
    (Z.max (ratio both combined2) (ratio combined1 combined2)).

(** Modelled from the spec: helper.py is missing; section 4.3, the four
    fuzzy features, on the normalized texts. *)
Definition fuzzy_features (q1 q2 : NormalizedQuestion) : list R :=
  map IZR
    [ratio (text q1) (text q2); partial_ratio (text q1) (text q2);
     token_sort_ratio (text q1) (text q2);
     token_set_ratio (text q1) (text q2)].

(** *** 4.4 Embedder and 4.5 similarity scorer *)

(** Modelled from the spec: helper.py is missing; section 4.4: position [i]
    holds the number of occurrences of vocabulary token [i] among the
    question's tokens; tokens outside the vocabulary contribute nothing. *)
Definition embed (cfg : Config) (q : NormalizedQuestion) : list nat :=
  map (count_occ pystr_eq_dec (tokens q)) (vocabulary cfg).

(** Modelled from the spec: helper.py is missing; section 8: whether a
    question has a token of the vocabulary. *)
Definition has_vocabulary_token (cfg : Config) (q : NormalizedQuestion)
  : bool :=
  existsb (fun t => member t (vocabulary cfg)) (tokens q).

(** Modelled from the spec: helper.py is missing; section 4.5: the dot
    product of two count vectors. *)
Fixpoint dot (a b : list nat) : nat :=
  match a, b with
  | x :: a', y :: b' => (x * y + dot a' b')%nat
  | _, _ => 0%nat
  end.

(** Modelled from the spec: helper.py is missing; section 4.5: the
    Euclidean norm of a count vector. *)
Definition norm (a : list nat) : R := sqrt (INR (dot a a)).

(** Modelled from the spec: helper.py is missing; section 4.5: clamping
    into [0, 1]. *)
Definition clamp01 (x : R) : R := Rmax 0 (Rmin 1 x).

(** Modelled from the spec: helper.py is missing; section 4.5:
    [dot(a, b) / (norm a * norm b)] clamped into [0, 1], and 0 when either
    norm is 0. *)
Definition cosine_similarity (a b : list nat) : R :=
  if Req_dec_T (norm a) 0 then 0%R
  else if Req_dec_T (norm b) 0 then 0%R
  else clamp01 (INR (dot a b) / (norm a * norm b)).

(** *** 4.6 Assembler and the entry point *)

(** Modelled from the spec: helper.py is missing; sections 4.6 and 6: the
    feature groups in their fixed order. *)
Definition compute_features (cfg : Config) (question_a question_b : pystr)
  : list R :=
  let q1 := normalize cfg question_a in
  let q2 := normalize cfg question_b in
  basic_features cfg q1 q2 ++ token_features cfg q1 q2
  ++ length_features cfg q1 q2 ++ fuzzy_features q1 q2
  ++ [cosine_similarity (embed cfg q1) (embed cfg q2)].

(** Modelled from the spec: helper.py is missing; section 6: the
    convenience [score], field 22 of the feature vector. *)
Definition score (cfg : Config) (question_a question_b : pystr) : R :=
  nth 22 (compute_features cfg question_a question_b) 0%R.

(** Modelled from the spec: helper.py is missing; the entry point as
    [app.py] uses it (line 208 unpacks a pair, lines 211 and 384-387 index
    the first component with a row and a column): the feature vector as the
    single row of a 2-D array, beside a message. *)
Definition query_point_creator (cfg : Config) (q1 q2 : pystr)
  : result value :=
  Ok (VTuple [VArray2 [compute_features cfg q1 q2];
              VStr (result_message cfg q1 q2)]).

End Helper.

(* ===================================================================== *)
(** ** Invariants used in the proofs *)
(* ===================================================================== *)

Import PyStr Py Helper App.
Local Open Scope string_scope.
Local Open Scope list_scope.

(** A piece of script is silent for a reading of the events when it shows
    nothing that the reading picks up. *)
Definition silent {env : Env} {B A : Type} (f : event -> list B)
    (m : ui env A) : Prop :=
  forall g, flat_map f (shown (m g)) = [].

(** [within n row]: the entry at position [j] of [row] is at most [n + j]. *)
Fixpoint within (n : nat) (row : list nat) : Prop :=
  match row with
  | [] => True
  | x :: row' => x <= n /\ within (S n) row'
  end.

(* ===================================================================== *)
(** ** app.py: the sidebar, and further readings of a run *)
(* ===================================================================== *)

(** Lines 148-155: the bounds, the default and the step of the threshold
    slider. *)
Definition slider_min : R := 0.5.
Definition slider_max : R := 1.
Definition slider_default : R := 0.85.
Definition slider_step : R := 0.01.

(** Lines 157-165: the animation of the sidebar, or its icon. *)
Definition sidebar_animation (env : Env) : ui env unit :=
  if LOTTIE_AVAILABLE env then
    match load_lottieurl env
            "https://assets5.lottiefiles.com/packages/lf20_qp1q7mct.json" with
    | Some lottie_compare =>
        if truthy env lottie_compare
        then emit env (Lottie 200 "compare_animation")
        else emit env Icon
    | None => emit env Icon
    end
  else emit env Icon.

(** The request for [url] answers with status 200 and a body that decodes to
    a JSON value that counts as true. *)
Definition answers_with_animation (env : Env) (url : string) : bool :=
  match requests_get env url with
  | Some (status_code, JsonValue body) =>
      (status_code =? 200)%Z && truthy env body
  | _ => false
  end.

(** The state of the random generator after a run. *)
Definition final_rng {G A : Type} (run : list event * G * result A) : G :=
  snd (fst run).

(** A run that first shows [e] and then goes on as [run]. *)
Definition after_event {G A : Type} (e : event)
    (run : list event * G * result A) : list event * G * result A :=
  (e :: shown run, final_rng run, snd run).

(** Lines 318-320: the three samplings of the 3-D tab, [x] around column 0
    of the row, then [y] around column 1, then [z] around column 2, each
    with a fifth of its centre for scale; the first that raises ends
    them. *)
Definition sample_points (env : Env) (row : list R) (g : rng env)
  : result (list R * list R * list R) * rng env :=
  let around := fun b g => random_normal env b (b * 0.2)%R 50 g in
  match around (nth 0 row 0%R) g with
  | (Raise e, g1) => (Raise e, g1)
  | (Ok x, g1) =>
      match around (nth 1 row 0%R) g1 with
      | (Raise e, g2) => (Raise e, g2)
      | (Ok y, g2) =>
          match around (nth 2 row 0%R) g2 with
          | (Raise e, g3) => (Raise e, g3)
          | (Ok z, g3) => (Ok (x, y, z), g3)
          end
      end
  end.

(** The element lines 256-265 show: the animation or the icon. *)
Definition animation_shown (env : Env) : event :=
  if LOTTIE_AVAILABLE env
     && answers_with_animation env
          "https://assets9.lottiefiles.com/packages/lf20_jR229a.json"
  then Lottie 150 "success_animation" else Icon.

(** What the feature-comparison tab shows for row 0 of the query. *)
Definition feature_comparison_shown (row : list R) : list event :=
  [BarChart token_labels (slice row 7 15) "Token Features Comparison";
   RadarChart (slice row 18 22) fuzzy_labels 0 100].

(** What the 3-D tab shows for row 0 of the query and the samples. *)
Definition visualization_shown (row x y z : list R) : list event :=
  let b0 := nth 0 row 0%R in
  let b1 := nth 1 row 0%R in
  let b2 := nth 2 row 0%R in
  [Scatter3d x y z (distances x y z b0 b1 b2) (b0, b1, b2);
   Info ("This 3D visualization shows the feature space with the "
         ++ "current query highlighted in red.")%string].

(** A chart or a table whose labels and values differ in number. *)
Definition misaligned_of (e : event) : list event :=
  match e with
  | BarChart x y _ => if (length x =? length y)%nat then [] else [e]
  | RadarChart r theta _ _ =>
      if (length r =? length theta)%nat then [] else [e]
  | Dataframe feature val =>
      if (length feature =? length val)%nat then [] else [e]
  | _ => []
  end.

(** Lines 208-211: the call of the helper, the unpacking of what it
    returned and the read of row 0, column 22; the query and its
    similarity, or the first exception. *)
Definition read_similarity (env : Env) (q1 q2 : pystr)
  : result (value * R) :=
  match App.query_point_creator env q1 q2 with
  | Raise e => Raise e
  | Ok returned =>
      match unpack2 returned with
      | Raise e => Raise e
      | Ok (query, _) =>
          match getitem2 query 0 22 with
          | Raise e => Raise e
          | Ok cosine_sim => Ok (query, cosine_sim)
          end
      end
  end.

(** The events of a run other than the verdict box. *)
Definition without_verdict (out : list event) : list event :=
  filter (fun e => match e with VerdictBox _ => false | _ => true end) out.

(** What the analysis shows before it reads the similarity. *)
Definition before_the_read (q1 q2 : pystr) : list event :=
  [Spinner "Analyzing questions..."; Sleep 1; HelperCall q1 q2].

(** What the analysis shows between the read and the tabs, for the
    similarity [c] and the threshold [t]. *)
Definition result_card (c t : R) : list event :=
  [Markdown "result-card"; Success "Analysis completed successfully!";
   Markdown "Similarity Score"; similarity_meter c; VerdictBox (judge c t)].

(** What the raw-data tab shows for row 0 of the query and the similarity
    [c]. *)
Definition raw_data_shown (row : list R) (c : R) : list event :=
  [Markdown "Raw Feature Vector";
   Markdown "Basic Features"; Dataframe basic_labels (slice row 0 7);
   Markdown "Length Features"; Dataframe length_labels (slice row 15 18);
   Markdown "Token Features"; Dataframe token_labels (slice row 7 15);
   Markdown "Fuzzy Features"; Dataframe fuzzy_labels (slice row 18 22);
   Markdown "Cosine Similarity"; Metric "Similarity Score" c 4].

(* ===================================================================== *)
(** ** Fixtures: a helper that returns a given value, and sample vectors *)
(* ===================================================================== *)

(** An environment without Lottie and network, whose random generator
    returns its location argument, around a given helper. *)
Definition offline (helper : pystr -> pystr -> result value) : Env :=
  {| rng := unit;
     json := unit;
     truthy := fun _ => true;
     LOTTIE_AVAILABLE := false;
     requests_get := fun _ => None;
     random_normal := fun loc _ size g => (Ok (repeat loc size), g);
     query_point_creator := helper |}.

(** A helper that returns [returned] whatever the questions. *)
Definition fixed_helper (returned : result value) : Env :=
  offline (fun _ _ => returned).

(** A 1 x 23 query whose cosine similarity (column 22) is [c] and whose
    other columns are [x]. *)
Definition sample_query (x c : R) : value :=
  VArray2 [repeat x 22 ++ [c]].

Definition sample_return (x c : R) : value :=
  VTuple [sample_query x c; VStr (of_string "done")].

Definition question_a : pystr := of_string "What is the capital of France?".
Definition question_b : pystr := of_string "What is the capital of France".

(** A small configuration: ASCII case folding, question marks removed, six
    stop words and a vocabulary of six tokens. *)
Definition ascii_lower (s : pystr) : pystr :=
  map (fun c => if ((65 <=? c) && (c <=? 90))%N then (c + 32)%N else c) s.

Definition drop_question_marks (s : pystr) : pystr :=
  filter (fun c => negb (c =? 63)%N) s.

Definition sample_config : Config :=
  {| lower := ascii_lower;
     substitute := drop_question_marks;
     stop_words := map of_string ["what"; "is"; "the"; "of"; "to"; "how"];
     vocabulary :=
       map of_string ["capital"; "france"; "python"; "learn"; "pasta"; "cook"];
     eps := (/ 10000)%R;
     eps_pos := Rinv_0_lt_compat 10000 (IZR_lt 0 10000 eq_refl);
     result_message := fun _ _ => of_string "done" |}.

Definition question_c : pystr := of_string "Hello world".

(** An environment whose random generator has a counter for its state, so
    that successive samples differ. *)
Definition seeded (helper : pystr -> pystr -> result value) : Env :=
  {| rng := nat;
     json := unit;
     truthy := fun _ => true;
     LOTTIE_AVAILABLE := true;
     requests_get := fun _ => Some (200%Z, JsonValue tt);
     random_normal := fun loc scale size g =>
       (Ok (map (fun k => (loc + scale * INR (g + k))%R) (seq 0 size)),
        g + size);
     query_point_creator := helper |}.


(* ===================================================================== *)
(** ** Properties of the string operations *)
(* ===================================================================== *)

Lemma lstrip_blank (s : pystr) :
  is_empty (lstrip s) = forallb isspace s.
Proof.
  induction s as [|c s IH]; simpl; [reflexivity|].
  destruct (isspace c); simpl; [exact IH | reflexivity].
Qed.

Lemma lstrip_keeps_last (s : pystr) (c : N) :
  isspace c = false -> is_empty (lstrip (s ++ [c])) = false.
Proof.
  intros Hc. induction s as [|x s IH]; simpl.
  - rewrite Hc. reflexivity.
  - destruct (isspace x); [exact IH | reflexivity].
Qed.

Lemma lstrip_head (s : pystr) (c : N) (s' : pystr) :
  lstrip s = c :: s' -> isspace c = false.
Proof.
  induction s as [|x s IH]; simpl; [discriminate|].
  destruct (isspace x) eqn:Hx; [exact IH|].
  intros H. injection H as -> _. exact Hx.
Qed.

Lemma is_empty_rev (s : pystr) : is_empty (rev s) = is_empty s.
Proof.
  destruct s as [|c s]; simpl; [reflexivity|].
  destruct (rev s); reflexivity.
Qed.

(** A string strips to the empty string exactly when all its characters are
    whitespace. *)
Lemma strip_blank (s : pystr) :
  is_empty (strip s) = forallb isspace s.
Proof.
  rewrite <- lstrip_blank. unfold strip, rstrip. rewrite is_empty_rev.
  destruct (lstrip s) as [|c s'] eqn:E; [reflexivity|].
  simpl. apply lstrip_keeps_last. exact (lstrip_head s c s' E).
Qed.

(* ===================================================================== *)
(** ** Properties of the lexical features *)
(* ===================================================================== *)

Lemma eqb_eq (a b : pystr) : eqb a b = true <-> a = b.
Proof.
  revert b. induction a as [|x a IH]; intros [|y b]; simpl;
    try (split; [discriminate | congruence]); [tauto|].
  rewrite andb_true_iff, N.eqb_eq, IH. split.
  - intros [-> ->]. reflexivity.
  - intros H. injection H as -> ->. split; reflexivity.
Qed.

Lemma member_In (t : pystr) (l : list pystr) :
  member t l = true <-> In t l.
Proof.
  unfold member. rewrite existsb_exists. split.
  - intros [x [Hin Heq]]. apply eqb_eq in Heq. subst x. exact Hin.
  - intros Hin. exists t. split; [exact Hin | apply eqb_eq; reflexivity].
Qed.

Lemma token_set_length (l : list pystr) : length (token_set l) <= length l.
Proof.
  unfold token_set. induction l as [|t l IH]; simpl; [lia|].
  destruct (in_dec pystr_eq_dec t l); simpl; lia.
Qed.

Lemma common_count_le_left (a b : list pystr) :
  common_count a b <= length a.
Proof.
  unfold common_count.
  etransitivity; [apply filter_length_le | apply token_set_length].
Qed.

Lemma common_count_le_right (a b : list pystr) :
  common_count a b <= length b.
Proof.
  unfold common_count.
  etransitivity; [|apply (token_set_length b)].
  apply NoDup_incl_length.
  - apply NoDup_filter. apply NoDup_nodup.
  - intros t Ht. apply filter_In in Ht. destruct Ht as [_ Ht].
    apply member_In in Ht. exact Ht.
Qed.

Lemma common_count_le_min (a b : list pystr) :
  common_count a b <= Nat.min (length a) (length b).
Proof.
  apply Nat.min_glb; [apply common_count_le_left | apply common_count_le_right].
Qed.

Lemma common_count_filter_le_min (p : pystr -> bool) (a b : list pystr) :
  common_count (filter p a) (filter p b) <= Nat.min (length a) (length b).
Proof.
  etransitivity; [apply common_count_le_min|].
  apply Nat.min_le_compat; apply filter_length_le.
Qed.

(** A count over a count that is at least as large, with [eps] added to the
    denominator, lies between 0 and 1. *)
Lemma ratio_eps_unit (cfg : Config) (num den : nat) :
  num <= den -> (0 <= ratio_eps cfg num den <= 1)%R.
Proof.
  intros Hle. unfold ratio_eps.
  pose proof (eps_pos cfg) as Heps.
  pose proof (pos_INR num) as Hnum. pose proof (pos_INR den) as Hden.
  apply le_INR in Hle.
  assert (Hpos : (0 < INR den + eps cfg)%R) by lra.
  split.
  - apply Rmult_le_pos; [exact Hnum|].
    left. apply Rinv_0_lt_compat. exact Hpos.
  - apply Rmult_le_reg_r with (r := (INR den + eps cfg)%R); [exact Hpos|].
    unfold Rdiv. rewrite Rmult_assoc, Rinv_l; lra.
Qed.

Lemma same_token_unit (a b : option pystr) :
  (0 <= same_token a b <= 1)%R.
Proof.
  destruct a as [x|], b as [y|]; simpl; try lra.
  destruct (eqb x y); lra.
Qed.

(** Every entry of a row of the table is at most one more than the largest
    entry that can stand diagonally above it. *)
Lemma lcs_row_bound (a : pystr) (b : list pystr) (n : nat) :
  forall (diag : nat) (above : list nat),
    diag <= n -> Forall (fun k => k <= n) above ->
    Forall (fun k => k <= S n) (lcs_row a b diag above).
Proof.
  induction b as [|bj b IH]; intros diag above Hd Ha; simpl; [constructor|].
  destruct above as [|u above]; [constructor|].
  inversion Ha as [|? ? Hu Ha']; subst.
  constructor; [destruct (eqb a bj); lia | apply IH; assumption].
Qed.

Lemma lcs_rows_bound (a b : list pystr) :
  forall (n : nat) (above : list nat) (best : nat),
    Forall (fun k => k <= n) above -> best <= n ->
    lcs_rows a b above best <= n + length a.
Proof.
  induction a as [|ai a IH]; intros n above best Ha Hb; simpl; [lia|].
  pose proof (lcs_row_bound ai b n 0 above (Nat.le_0_l n) Ha) as Hrow.
  specialize (IH (S n) (lcs_row ai b 0 above)
                (Nat.max best (list_max (lcs_row ai b 0 above))) Hrow).
  assert (Hmax : Nat.max best (list_max (lcs_row ai b 0 above)) <= S n).
  { apply Nat.max_lub; [lia | apply list_max_le; exact Hrow]. }
  specialize (IH Hmax). lia.
Qed.

Lemma longest_common_run_le (a b : list pystr) :
  longest_common_run a b <= length a.
Proof.
  unfold longest_common_run.
  change (length a) with (0 + length a).
  apply lcs_rows_bound; [|lia].
  apply Forall_forall. intros k Hk. apply repeat_spec in Hk. lia.
Qed.

(* ===================================================================== *)
(** ** Properties of the fuzzy features *)
(* ===================================================================== *)

Lemma within_seq (n len : nat) : within n (seq n len).
Proof.
  revert n. induction len as [|len IH]; intros n; simpl; [exact I|].
  split; [lia | apply IH].
Qed.

Lemma within_last (row : list nat) :
  forall n, within n row -> last row 0 <= n + pred (length row).
Proof.
  induction row as [|x row IH]; intros n H; [simpl; lia|].
  destruct H as [Hx Hrow]. destruct row as [|y row].
  - simpl. lia.
  - specialize (IH (S n) Hrow).
    change (last (x :: y :: row) 0) with (last (y :: row) 0).
    cbn [length pred] in *. lia.
Qed.

Lemma distance_row_within (a : N) (b : pystr) :
  forall (diag left : nat) (above : list nat) (k : nat),
    diag <= k -> left <= S k -> within (S k) above ->
    within (S (S k)) (distance_row a b diag left above).
Proof.
  induction b as [|bj b IH]; intros diag left above k Hd Hl Ha; simpl;
    [exact I|].
  destruct above as [|u above]; [exact I|].
  destruct Ha as [Hu Ha]. simpl. split.
  - destruct (a =? bj)%N; lia.
  - apply IH; [exact Hu | destruct (a =? bj)%N; lia | exact Ha].
Qed.

Lemma distance_row_length (a : N) (b : pystr) :
  forall (diag left : nat) (above : list nat),
    length (distance_row a b diag left above) <= length b.
Proof.
  induction b as [|bj b IH]; intros diag left above; simpl; [lia|].
  destruct above as [|u above]; simpl; [lia|].
  specialize (IH u (if (a =? bj)%N then diag else S (Nat.min u left)) above).
  lia.
Qed.

Lemma distance_rows_within (a b : pystr) :
  forall (row : list nat) (n : nat),
    within n row -> within (n + length a) (distance_rows a b row).
Proof.
  induction a as [|ai a IH]; intros row n H; simpl.
  - rewrite Nat.add_0_r. exact H.
  - destruct row as [|r0 above]; [exact I|].
    destruct H as [H0 Ha].
    replace (n + S (length a)) with (S n + length a) by lia.
    apply IH. simpl. split; [lia|].
    apply distance_row_within; [exact H0 | lia | exact Ha].
Qed.

Lemma distance_rows_length (a b : pystr) :
  forall row : list nat,
    length row <= S (length b) ->
    length (distance_rows a b row) <= S (length b).
Proof.
  induction a as [|ai a IH]; intros row H; simpl; [exact H|].
  destruct row as [|r0 above]; [simpl; lia|].
  apply IH. simpl.
  pose proof (distance_row_length ai b r0 (S r0) above). lia.
Qed.

(** Deleting all of [a] and inserting all of [b] is always possible. *)
Lemma edit_distance_le (a b : pystr) :
  edit_distance a b <= length a + length b.
Proof.
  unfold edit_distance.
  pose proof (distance_rows_within a b (seq 0 (S (length b))) 0
                (within_seq 0 (S (length b)))) as Hw.
  apply within_last in Hw.
  assert (Hlen : length (distance_rows a b (seq 0 (S (length b))))
                 <= S (length b)).
  { apply distance_rows_length. rewrite length_seq. lia. }
  lia.
Qed.

Lemma ratio_range (a b : pystr) : (0 <= ratio a b <= 100)%Z.
Proof.
  unfold ratio.
  destruct a as [|x a]; [simpl; lia|].
  destruct b as [|y b]; [simpl; lia|].
  cbv [is_empty orb].
  pose proof (edit_distance_le (x :: a) (y :: b)) as Hd.
  set (len := Z.of_nat (length (x :: a) + length (y :: b))).
  set (d := Z.of_nat (edit_distance (x :: a) (y :: b))).
  assert (Hlen : (0 < len)%Z) by (subst len; simpl length; lia).
  assert (Hdl : (0 <= d <= len)%Z) by (subst d len; lia).
  split.
  - apply Z.div_pos; nia.
  - assert ((200 * (len - d) + len) / (2 * len) < 101)%Z; [|lia].
    apply Z.div_lt_upper_bound; nia.
Qed.

Lemma max_of_ratios_range (l : list Z) :
  Forall (fun x => 0 <= x <= 100)%Z l ->
  (0 <= fold_right Z.max 0 l <= 100)%Z.
Proof.
  induction 1 as [|x l Hx _ IH]; simpl; lia.
Qed.

Lemma partial_ratio_range (a b : pystr) : (0 <= partial_ratio a b <= 100)%Z.
Proof.
  unfold partial_ratio. apply max_of_ratios_range.
  apply Forall_map. apply Forall_forall. intros w _. apply ratio_range.
Qed.

Lemma token_sort_ratio_range (a b : pystr) :
  (0 <= token_sort_ratio a b <= 100)%Z.
Proof. apply ratio_range. Qed.

Lemma token_set_ratio_range (a b : pystr) :
  (0 <= token_set_ratio a b <= 100)%Z.
Proof.
  unfold token_set_ratio. cbv zeta.
  repeat match goal with
         | |- context [ratio ?x ?y] =>
             let H := fresh "H" in
             pose proof (ratio_range x y) as H;
             generalize dependent (ratio x y); intros
         end.
  lia.
Qed.

(* ===================================================================== *)
(** ** Properties of the embedder and the similarity scorer *)
(* ===================================================================== *)

Lemma clamp01_range (x : R) : (0 <= clamp01 x <= 1)%R.
Proof.
  unfold clamp01, Rmax, Rmin.
  destruct (Rle_dec 1 x); destruct (Rle_dec 0 _); lra.
Qed.

Lemma clamp01_unit (x : R) : (0 <= x <= 1)%R -> clamp01 x = x.
Proof.
  intros H. unfold clamp01, Rmax, Rmin.
  destruct (Rle_dec 1 x); destruct (Rle_dec 0 _); lra.
Qed.

Lemma cosine_similarity_range (a b : list nat) :
  (0 <= cosine_similarity a b <= 1)%R.
Proof.
  unfold cosine_similarity.
  destruct (Req_dec_T (norm a) 0); [lra|].
  destruct (Req_dec_T (norm b) 0); [lra|].
  apply clamp01_range.
Qed.

Lemma norm_zero (a : list nat) : norm a = 0%R <-> dot a a = 0.
Proof.
  unfold norm. split.
  - intros H. apply sqrt_eq_0 in H; [|apply pos_INR].
    apply INR_eq. exact H.
  - intros ->. simpl. apply sqrt_0.
Qed.

Lemma dot_self_zero (a : list nat) :
  dot a a = 0 <-> Forall (fun x => x = 0) a.
Proof.
  induction a as [|x a IH]; simpl.
  - split; [constructor | reflexivity].
  - split.
    + intros H. constructor; [nia | apply IH; nia].
    + intros H. inversion H as [|? ? Hx Ha]; subst.
      apply IH in Ha. lia.
Qed.

(** The embedding of a question is the zero vector exactly when none of its
    tokens is in the vocabulary. *)
Lemma embed_zero (cfg : Config) (q : NormalizedQuestion) :
  Forall (fun x => x = 0) (embed cfg q) <-> has_vocabulary_token cfg q = false.
Proof.
  unfold embed, has_vocabulary_token.
  rewrite Forall_map, Forall_forall.
  split.
  - intros H. apply not_true_is_false. intros Hex.
    apply existsb_exists in Hex. destruct Hex as [t [Ht Hv]].
    apply member_In in Hv. specialize (H t Hv).
    apply (count_occ_not_In pystr_eq_dec) in H. exact (H Ht).
  - intros H v Hv. apply (count_occ_not_In pystr_eq_dec). intros Ht.
    assert (Hex : existsb (fun t => member t (vocabulary cfg)) (tokens q)
                  = true).
    { apply existsb_exists. exists v. split; [exact Ht|].
      apply member_In. exact Hv. }
    congruence.
Qed.

Lemma norm_embed_zero (cfg : Config) (q : NormalizedQuestion) :
  norm (embed cfg q) = 0%R <-> has_vocabulary_token cfg q = false.
Proof. rewrite norm_zero, dot_self_zero. apply embed_zero. Qed.

Lemma cosine_similarity_zero_norm (a b : list nat) :
  norm a = 0%R \/ norm b = 0%R -> cosine_similarity a b = 0%R.
Proof.
  intros H. unfold cosine_similarity.
  destruct (Req_dec_T (norm a) 0); [reflexivity|].
  destruct (Req_dec_T (norm b) 0); [reflexivity|].
  tauto.
Qed.

Lemma cosine_similarity_self (a : list nat) :
  norm a <> 0%R -> cosine_similarity a a = 1%R.
Proof.
  intros H. unfold cosine_similarity.
  destruct (Req_dec_T (norm a) 0) as [E|_]; [contradiction|].
  assert (Hsq : (norm a * norm a = INR (dot a a))%R).
  { unfold norm. apply sqrt_sqrt. apply pos_INR. }
  rewrite <- Hsq.
  replace (norm a * norm a / (norm a * norm a))%R with 1%R
    by (field; exact H).
  apply clamp01_unit. lra.
Qed.

Lemma score_is_cosine (cfg : Config) (a b : pystr) :
  score cfg a b
  = cosine_similarity (embed cfg (normalize cfg a))
      (embed cfg (normalize cfg b)).
Proof. reflexivity. Qed.

Lemma compute_features_length (cfg : Config) (a b : pystr) :
  length (compute_features cfg a b) = 23.
Proof. reflexivity. Qed.

(* ===================================================================== *)
(** ** Properties of the results section *)
(* ===================================================================== *)

Section ScriptFacts.
Variable env : Env.

Lemma shown_emit (A : Type) (e : event) (k : unit -> ui env A)
    (g : rng env) :
  shown (bind env (emit env e) k g) = e :: shown (k tt g).
Proof.
  unfold bind, emit, shown. destruct (k tt g) as [[out g'] r]. reflexivity.
Qed.

Lemma bind_lift_ok (A B : Type) (a : A) (k : A -> ui env B) (g : rng env) :
  bind env (lift env (Ok a)) k g = k a g.
Proof.
  unfold bind, lift. destruct (k a g) as [[out g'] r]. reflexivity.
Qed.

Lemma raised_shows_nothing (A B : Type) (e : exn) (k : A -> ui env B)
    (g : rng env) :
  shown (bind env (lift env (Raise e)) k g) = [].
Proof. reflexivity. Qed.

Lemma silent_ret (B A : Type) (f : event -> list B) (a : A) :
  silent f (ret env a).
Proof. intros g. reflexivity. Qed.

Lemma silent_lift (B A : Type) (f : event -> list B) (r : result A) :
  silent f (lift env r).
Proof. intros g. reflexivity. Qed.

Lemma silent_emit (B : Type) (f : event -> list B) (e : event) :
  f e = [] -> silent f (emit env e).
Proof. intros H g. unfold emit, shown. simpl. rewrite H. reflexivity. Qed.

Lemma silent_draw (B : Type) (f : event -> list B) (loc scale : R)
    (size : nat) :
  silent f (draw env loc scale size).
Proof.
  intros g. unfold draw, shown.
  destruct (random_normal env loc scale size g). reflexivity.
Qed.

Lemma silent_bind (B A C : Type) (f : event -> list B) (m : ui env A)
    (k : A -> ui env C) :
  silent f m -> (forall a, silent f (k a)) -> silent f (bind env m k).
Proof.
  unfold silent, shown, bind. intros Hm Hk g. specialize (Hm g).
  destruct (m g) as [[out g'] [a|e]]; simpl in *; [|exact Hm].
  specialize (Hk a g'). destruct (k a g') as [[out' g''] r]. simpl in *.
  rewrite flat_map_app, Hm, Hk. reflexivity.
Qed.

Ltac quiet :=
  repeat first
    [ apply silent_ret | apply silent_lift | apply silent_draw
    | apply silent_emit; reflexivity
    | apply silent_bind; [| intro]
    | progress cbv zeta ].

Lemma silent_success_animation (B : Type) (f : event -> list B) :
  (forall height key, f (Lottie height key) = []) -> f Icon = [] ->
  silent f (success_animation env).
Proof.
  intros HL HI. unfold success_animation.
  destruct (LOTTIE_AVAILABLE env); [|apply silent_emit; exact HI].
  destruct (load_lottieurl env _) as [j|]; [|apply silent_emit; exact HI].
  destruct (truthy env j); apply silent_emit; [apply HL | exact HI].
Qed.

Lemma silent_feature_comparison_tab (B : Type) (f : event -> list B)
    (query : value) :
  (forall x y title, f (BarChart x y title) = []) ->
  (forall r theta lo hi, f (RadarChart r theta lo hi) = []) ->
  silent f (feature_comparison_tab env query).
Proof.
  intros HB HR. unfold feature_comparison_tab. quiet.
  - apply silent_emit. apply HB.
  - apply silent_emit. apply HR.
Qed.

Lemma silent_visualization_tab (B : Type) (f : event -> list B)
    (query : value) :
  (forall x y z colour p, f (Scatter3d x y z colour p) = []) ->
  (forall msg, f (Info msg) = []) ->
  silent f (visualization_tab env query).
Proof.
  intros HS HI. unfold visualization_tab. quiet.
  - apply silent_emit. apply HS.
  - apply silent_emit. apply HI.
Qed.

Ltac quiet_details :=
  unfold details;
  apply silent_bind; [apply silent_success_animation; reflexivity | intro];
  apply silent_bind; [apply silent_emit; reflexivity | intro];
  apply silent_bind;
    [apply silent_feature_comparison_tab; reflexivity | intro];
  apply silent_bind; [apply silent_visualization_tab; reflexivity | intro];
  unfold raw_data_tab; quiet.

Lemma details_show_no_verdict (query : value) (cosine_sim : R) :
  silent verdict_of (details env query cosine_sim).
Proof. quiet_details. Qed.

Lemma details_show_no_score (query : value) (cosine_sim : R) :
  silent score_of (details env query cosine_sim).
Proof. quiet_details. Qed.

Lemma details_show_no_meter (query : value) (cosine_sim : R) :
  silent meter_width_of (details env query cosine_sim).
Proof. quiet_details. Qed.

Lemma details_make_no_call (query : value) (cosine_sim : R) :
  silent call_of (details env query cosine_sim).
Proof. quiet_details. Qed.

(** What a run of the analysis shows up to the verdict, when the helper
    returns a value that unpacks into two and whose first component has an
    entry at row 0, column 22. *)
Lemma analyze_shown (q1 q2 : pystr) (t : R) (g : rng env)
    (returned query message : value) (c : R) :
  query_point_creator env q1 q2 = Ok returned ->
  unpack2 returned = Ok (query, message) ->
  getitem2 query 0 22 = Ok c ->
  shown (analyze env q1 q2 t g) =
    [Spinner "Analyzing questions..."; Sleep 1; HelperCall q1 q2;
     Markdown "result-card"; Success "Analysis completed successfully!";
     Markdown "Similarity Score"; similarity_meter c;
     VerdictBox (judge c t)] ++ shown (details env query c g).
Proof.
  intros Hcall Hpair Hcos. unfold analyze.
  rewrite !shown_emit, Hcall, bind_lift_ok, Hpair, bind_lift_ok.
  cbv zeta. simpl fst. rewrite Hcos, bind_lift_ok.
  rewrite !shown_emit. reflexivity.
Qed.

End ScriptFacts.

(** The verdict, the score and the call of a run that got a similarity from
    the helper. *)
Lemma results_of_analysis (env : Env) (q1 q2 : pystr) (t : R) (g : rng env)
    (returned query message : value) (c : R) :
  is_empty (strip q1) || is_empty (strip q2) = false ->
  query_point_creator env q1 q2 = Ok returned ->
  unpack2 returned = Ok (query, message) ->
  getitem2 query 0 22 = Ok c ->
  let out := shown (results_section env true q1 q2 t g) in
  verdicts out = [judge c t] /\ scores out = [c]
  /\ meter_widths out = [(c * 100)%R] /\ helper_calls out = [(q1, q2)].
Proof.
  intros Hblank Hcall Hpair Hcos. unfold results_section. rewrite Hblank.
  rewrite (analyze_shown env q1 q2 t g returned query message c
             Hcall Hpair Hcos).
  unfold verdicts, scores, meter_widths, helper_calls.
  rewrite !flat_map_app.
  rewrite (details_show_no_verdict env query c g),
    (details_show_no_score env query c g),
    (details_show_no_meter env query c g),
    (details_make_no_call env query c g).
  repeat split.
Qed.

Lemma judge_above (c t : R) : (c > t)%R -> judge c t = Duplicates.
Proof.
  intros H. unfold judge.
  destruct (Rgt_dec c t); [reflexivity | contradiction].
Qed.

Lemma judge_not_above (c t : R) : (c <= t)%R -> judge c t = NotDuplicates.
Proof.
  intros H. unfold judge. destruct (Rgt_dec c t) as [Hgt|]; [|reflexivity].
  lra.
Qed.

(* ===================================================================== *)
(** ** The sample configuration at work *)
(* ===================================================================== *)

Example normalize_question_a :
  normalize sample_config question_a
  = {| text := of_string "what is the capital of france";
       tokens :=
         map of_string ["what"; "is"; "the"; "capital"; "of"; "france"] |}.
Proof. reflexivity. Qed.

Example embed_question_a :
  embed sample_config (normalize sample_config question_a) = [1; 1; 0; 0; 0; 0].
Proof. reflexivity. Qed.

Example fuzzy_question_a_b :
  let q1 := normalize sample_config question_a in
  let q2 :=
    normalize sample_config (of_string "Paris is the capital of France") in
  [ratio (text q1) (text q2); partial_ratio (text q1) (text q2);
   token_sort_ratio (text q1) (text q2); token_set_ratio (text q1) (text q2)]
  = [88; 90; 81; 91]%Z.
Proof. vm_compute. reflexivity. Qed.

Example same_normal_form :
  normalize sample_config question_b = normalize sample_config question_a.
Proof. vm_compute. reflexivity. Qed.

Example fuzzy_of_question_a_with_itself :
  let t := text (normalize sample_config question_a) in
  [ratio t t; partial_ratio t t; token_sort_ratio t t; token_set_ratio t t]
  = [100; 100; 100; 100]%Z.
Proof. vm_compute. reflexivity. Qed.

Lemma same_token_refl (a : option pystr) : same_token a a = 1%R.
Proof.
  destruct a as [x|]; simpl; [|reflexivity].
  replace (eqb x x) with true; [reflexivity|].
  symmetry. apply eqb_eq. reflexivity.
Qed.

(** Section 8 of the specification, first example: the same question with
    and without its question mark. *)
Example capital_of_france :
  let v := compute_features sample_config question_a question_b in
  score sample_config question_a question_b = 1%R
  /\ nth 13 v 0%R = 1%R /\ nth 14 v 0%R = 1%R /\ nth 15 v 0%R = 0%R
  /\ slice v 18 22 = [100; 100; 100; 100]%R.
Proof.
  cbv zeta. unfold score, compute_features. cbv zeta.
  rewrite same_normal_form.
  set (q := normalize sample_config question_a).
  refine (conj _ (conj _ (conj _ (conj _ _)))).
  - change (cosine_similarity (embed sample_config q) (embed sample_config q)
            = 1%R).
    apply cosine_similarity_self. intros H.
    apply norm_embed_zero in H. discriminate H.
  - apply same_token_refl.
  - apply same_token_refl.
  - change (INR (Nat.max (length (tokens q)) (length (tokens q))
                 - Nat.min (length (tokens q)) (length (tokens q))) = 0%R).
    rewrite Nat.max_id, Nat.min_id, Nat.sub_diag. reflexivity.
  - change (fuzzy_features q q = [100; 100; 100; 100]%R).
    unfold fuzzy_features. subst q.
    rewrite fuzzy_of_question_a_with_itself. reflexivity.
Qed.

(** Section 8, second example: questions with no vocabulary token in
    common. *)
Example python_and_pasta :
  let a := of_string "How to learn Python?" in
  let b := of_string "What is the best way to cook pasta?" in
  embed sample_config (normalize sample_config a) = [0; 0; 1; 1; 0; 0]
  /\ embed sample_config (normalize sample_config b) = [0; 0; 0; 0; 1; 1]
  /\ score sample_config a b = 0%R.
Proof.
  cbv zeta.
  assert (Ha : embed sample_config
                 (normalize sample_config (of_string "How to learn Python?"))
               = [0; 0; 1; 1; 0; 0]) by (vm_compute; reflexivity).
  assert (Hb : embed sample_config
                 (normalize sample_config
                    (of_string "What is the best way to cook pasta?"))
               = [0; 0; 0; 0; 1; 1]) by (vm_compute; reflexivity).
  split; [exact Ha | split; [exact Hb|]].
  rewrite score_is_cosine, Ha, Hb.
  unfold cosine_similarity.
  destruct (Req_dec_T (norm [0; 0; 1; 1; 0; 0]) 0); [reflexivity|].
  destruct (Req_dec_T (norm [0; 0; 0; 0; 1; 1]) 0); [reflexivity|].
  simpl dot. simpl INR at 1.
  unfold Rdiv. rewrite Rmult_0_l. apply clamp01_unit. lra.
Qed.

(** Section 8, third example, with the guard of the script bypassed: the
    vector of an empty question is defined, and its ratios are 0. *)
Example empty_question :
  let v := compute_features sample_config [] (of_string "Hello") in
  length v = 23 /\ nth 6 v 0%R = 0%R /\ nth 22 v 0%R = 0%R.
Proof.
  cbv zeta. split; [reflexivity | split].
  - change (nth 6 (compute_features sample_config [] (of_string "Hello")) 0%R)
      with (ratio_eps sample_config
              (common_count
                 (map (lower sample_config)
                    (tokens (normalize sample_config [])))
                 (map (lower sample_config)
                    (tokens (normalize sample_config (of_string "Hello")))))
              (length (tokens (normalize sample_config []))
               + length
                   (tokens (normalize sample_config (of_string "Hello"))))).
    replace (common_count _ _) with 0 by (vm_compute; reflexivity).
    unfold ratio_eps, Rdiv. simpl INR at 1. apply Rmult_0_l.
  - apply cosine_similarity_zero_norm. left.
    apply norm_embed_zero. vm_compute. reflexivity.
Qed.

(* ===================================================================== *)
(** ** The blank-input guard and the verdict *)
(* ===================================================================== *)

(** C4. When either question strips to the empty string, the results
    section never calls [helper.query_point_creator], whether or not the
    button was pressed; when the button was pressed it shows exactly the
    warning and ends normally. *)
Theorem blank_input_is_warned_not_analyzed
    (env : Env) (compare_button : bool) (q1 q2 : pystr) (t : R)
    (g : rng env) :
  strip q1 = [] \/ strip q2 = [] ->
  let run := results_section env compare_button q1 q2 t g in
  helper_calls (shown run) = []
  /\ (compare_button = true ->
      shown run = [Warning "Please enter both questions before comparing."]
      /\ raised run = None).
Proof.
  intros Hblank.
  assert (Hb : is_empty (strip q1) || is_empty (strip q2) = true).
  { destruct Hblank as [H|H]; rewrite H; simpl;
      [reflexivity | apply orb_true_r]. }
  unfold results_section. rewrite Hb.
  destruct compare_button; simpl; split; try reflexivity.
  - intros _. split; reflexivity.
  - discriminate.
Qed.

Lemma blank_input_is_warned_not_analyzed_witness :
  let run :=
    results_section (fixed_helper (Ok (sample_return 0 0.9))) true
      (of_string "  ") question_b 0.85 tt in
  helper_calls (shown run) = []
  /\ (true = true ->
      shown run = [Warning "Please enter both questions before comparing."]
      /\ raised run = None).
Proof.
  apply (@blank_input_is_warned_not_analyzed
           (fixed_helper (Ok (sample_return 0 0.9))) true
           (of_string "  ") question_b 0.85%R tt).
  left. reflexivity.
Defined.

(** C3. The verdict of a run is decided by comparing the entry at row 0,
    column 22 of the helper's vector with the threshold: "duplicates" when
    the similarity is above the threshold, "not duplicates" when it is
    below; two vectors that agree at column 22 get the same verdict,
    whatever their other entries. *)
Theorem verdict_compares_field_22_with_threshold
    (env env' : Env) (q1 q2 : pystr) (t : R) (g : rng env) (g' : rng env')
    (returned query message returned' query' message' : value) (c : R) :
  is_empty (strip q1) || is_empty (strip q2) = false ->
  query_point_creator env q1 q2 = Ok returned ->
  unpack2 returned = Ok (query, message) ->
  getitem2 query 0 22 = Ok c ->
  query_point_creator env' q1 q2 = Ok returned' ->
  unpack2 returned' = Ok (query', message') ->
  getitem2 query' 0 22 = Ok c ->
  verdicts (shown (results_section env true q1 q2 t g)) = [judge c t]
  /\ verdicts (shown (results_section env' true q1 q2 t g'))
     = verdicts (shown (results_section env true q1 q2 t g))
  /\ ((c > t)%R -> judge c t = Duplicates)
  /\ ((c < t)%R -> judge c t = NotDuplicates).
Proof.
  intros Hblank Hcall Hpair Hcos Hcall' Hpair' Hcos'.
  destruct (results_of_analysis env q1 q2 t g returned query message c
              Hblank Hcall Hpair Hcos) as [Hv _].
  destruct (results_of_analysis env' q1 q2 t g' returned' query' message' c
              Hblank Hcall' Hpair' Hcos') as [Hv' _].
  cbv zeta in Hv, Hv'. rewrite Hv, Hv'. repeat split.
  - apply judge_above.
  - intros Hlt. apply judge_not_above. lra.
Qed.

Lemma verdict_compares_field_22_with_threshold_witness :
  let env := fixed_helper (Ok (sample_return 0 0.9)) in
  let env' := fixed_helper (Ok (sample_return 1 0.9)) in
  verdicts (shown (results_section env true question_a question_b 0.85 tt))
  = [judge 0.9 0.85]
  /\ verdicts (shown (results_section env' true question_a question_b 0.85 tt))
     = verdicts (shown (results_section env true question_a question_b 0.85 tt))
  /\ ((0.9 > 0.85)%R -> judge 0.9 0.85 = Duplicates)
  /\ ((0.9 < 0.85)%R -> judge 0.9 0.85 = NotDuplicates).
Proof.
  apply (@verdict_compares_field_22_with_threshold
           (fixed_helper (Ok (sample_return 0 0.9)))
           (fixed_helper (Ok (sample_return 1 0.9)))
           question_a question_b 0.85%R tt tt
           (sample_return 0 0.9) (sample_query 0 0.9) (VStr (of_string "done"))
           (sample_return 1 0.9) (sample_query 1 0.9) (VStr (of_string "done"))
           0.9%R); reflexivity.
Defined.

(** C10. A similarity equal to the threshold is labelled "not duplicates":
    the comparison is a strict greater-than. *)
Theorem similarity_equal_to_threshold_is_not_duplicate
    (env : Env) (q1 q2 : pystr) (t : R) (g : rng env)
    (returned query message : value) :
  is_empty (strip q1) || is_empty (strip q2) = false ->
  query_point_creator env q1 q2 = Ok returned ->
  unpack2 returned = Ok (query, message) ->
  getitem2 query 0 22 = Ok t ->
  verdicts (shown (results_section env true q1 q2 t g)) = [NotDuplicates]
  /\ judge t t = NotDuplicates.
Proof.
  intros Hblank Hcall Hpair Hcos.
  destruct (results_of_analysis env q1 q2 t g returned query message t
              Hblank Hcall Hpair Hcos) as [Hv _].
  cbv zeta in Hv. rewrite Hv.
  rewrite (judge_not_above t t (Rle_refl t)). split; reflexivity.
Qed.

Lemma similarity_equal_to_threshold_is_not_duplicate_witness :
  verdicts
    (shown (results_section (fixed_helper (Ok (sample_return 0 0.85))) true
              question_a question_b 0.85 tt)) = [NotDuplicates]
  /\ judge 0.85 0.85 = NotDuplicates.
Proof.
  apply (@similarity_equal_to_threshold_is_not_duplicate
           (fixed_helper (Ok (sample_return 0 0.85)))
           question_a question_b 0.85%R tt
           (sample_return 0 0.85) (sample_query 0 0.85)
           (VStr (of_string "done"))); reflexivity.
Defined.

(* ===================================================================== *)
(** ** The feature vector *)
(* ===================================================================== *)

(** The groups of the vector, as the raw-data tab slices them. *)
Lemma compute_features_groups (cfg : Config) (a b : pystr) :
  let v := compute_features cfg a b in
  let q1 := normalize cfg a in
  let q2 := normalize cfg b in
  slice v 0 7 = basic_features cfg q1 q2
  /\ slice v 7 15 = token_features cfg q1 q2
  /\ slice v 15 18 = length_features cfg q1 q2
  /\ slice v 18 22 = fuzzy_features q1 q2
  /\ index v 22 = Ok (cosine_similarity (embed cfg q1) (embed cfg q2)).
Proof. repeat split. Qed.

(** C1. For every pair of input strings the pipeline returns one vector of
    exactly 23 real numbers, laid out as the 7 basic features (columns 0-6),
    the 8 token features (7-14), the 3 length features (15-17), the 4 fuzzy
    features (18-21) and the cosine similarity (22); these are the slices
    that lines 384-387 and 211 of the script read from row 0 of the query. *)
Theorem feature_vector_has_23_fields_in_fixed_order
    (cfg : Config) (a b : pystr) :
  let v := compute_features cfg a b in
  let query := VArray2 [v] in
  let q1 := normalize cfg a in
  let q2 := normalize cfg b in
  length v = 23
  /\ getslice2 query 0 0 7 = Ok (basic_features cfg q1 q2)
  /\ length (basic_features cfg q1 q2) = 7
  /\ getslice2 query 0 7 15 = Ok (token_features cfg q1 q2)
  /\ length (token_features cfg q1 q2) = 8
  /\ getslice2 query 0 15 18 = Ok (length_features cfg q1 q2)
  /\ length (length_features cfg q1 q2) = 3
  /\ getslice2 query 0 18 22 = Ok (fuzzy_features q1 q2)
  /\ length (fuzzy_features q1 q2) = 4
  /\ getitem2 query 0 22
     = Ok (cosine_similarity (embed cfg q1) (embed cfg q2))
  /\ v = basic_features cfg q1 q2 ++ token_features cfg q1 q2
         ++ length_features cfg q1 q2 ++ fuzzy_features q1 q2
         ++ [cosine_similarity (embed cfg q1) (embed cfg q2)]
  /\ (forall (env : Env) (cosine_sim : R) (g : rng env),
        dataframes (shown (raw_data_tab env query cosine_sim g))
        = [(basic_labels, basic_features cfg q1 q2);
           (length_labels, length_features cfg q1 q2);
           (token_labels, token_features cfg q1 q2);
           (fuzzy_labels, fuzzy_features q1 q2)]).
Proof.
  destruct (compute_features_groups cfg a b) as (Hb & Ht & Hl & Hf & Hc).
  cbv zeta in *. unfold getslice2, getitem2. simpl index at 1.
  repeat split; try (f_equal; assumption).
Qed.

(** C5. For every pair of input strings the four fuzzy features lie in
    [0, 100], the cosine similarity lies in [0, 1] (so the meter of lines
    223-234 is between 0 and 100 percent wide), and the ratio features lie
    in [0, 1]: the common-to-total ratio (6), the six token ratios and the
    two match flags (7-14) and the longest-common-run ratio (17). *)
Theorem feature_ranges (cfg : Config) (a b : pystr) :
  let v := compute_features cfg a b in
  Forall (fun x => 0 <= x <= 100)%R (slice v 18 22)
  /\ (0 <= nth 22 v 0 <= 1)%R
  /\ (0 <= score cfg a b * 100 <= 100)%R
  /\ Forall (fun x => 0 <= x <= 1)%R (slice v 6 15)
  /\ (0 <= nth 17 v 0 <= 1)%R.
Proof.
  cbv zeta.
  assert (Hcos : (0 <= score cfg a b <= 1)%R).
  { rewrite score_is_cosine. apply cosine_similarity_range. }
  split; [|split; [exact Hcos | split; [lra | split]]].
  - change (slice (compute_features cfg a b) 18 22)
      with (fuzzy_features (normalize cfg a) (normalize cfg b)).
    unfold fuzzy_features. apply Forall_map.
    set (t1 := text (normalize cfg a)). set (t2 := text (normalize cfg b)).
    pose proof (ratio_range t1 t2).
    pose proof (partial_ratio_range t1 t2).
    pose proof (token_sort_ratio_range t1 t2).
    pose proof (token_set_ratio_range t1 t2).
    repeat (apply Forall_cons; [split; apply IZR_le; lia|]).
    apply Forall_nil.
  - set (q1 := normalize cfg a). set (q2 := normalize cfg b).
    change (slice (compute_features cfg a b) 6 15)
      with (slice (basic_features cfg q1 q2) 6 7 ++ token_features cfg q1 q2).
    apply Forall_app. split.
    + change (slice (basic_features cfg q1 q2) 6 7)
        with [ratio_eps cfg
                (common_count (map (lower cfg) (tokens q1))
                   (map (lower cfg) (tokens q2)))
                (length (tokens q1) + length (tokens q2))].
      apply Forall_cons; [|apply Forall_nil].
      apply ratio_eps_unit.
      pose proof (common_count_le_left (map (lower cfg) (tokens q1))
                    (map (lower cfg) (tokens q2))) as H.
      rewrite length_map in H. lia.
    + unfold token_features. cbv zeta.
      repeat apply Forall_cons; try apply Forall_nil;
        try apply same_token_unit; apply ratio_eps_unit.
      * apply common_count_filter_le_min.
      * etransitivity; [apply common_count_filter_le_min|]. lia.
      * apply common_count_filter_le_min.
      * etransitivity; [apply common_count_filter_le_min|]. lia.
      * apply common_count_le_min.
      * etransitivity; [apply common_count_le_min|]. lia.
  - change (nth 17 (compute_features cfg a b) 0%R)
      with (ratio_eps cfg
              (longest_common_run (tokens (normalize cfg a))
                 (tokens (normalize cfg b)))
              (length (tokens (normalize cfg a))
               + length (tokens (normalize cfg b)))).
    apply ratio_eps_unit.
    pose proof (longest_common_run_le (tokens (normalize cfg a))
                  (tokens (normalize cfg b))).
    lia.
Qed.

(* ===================================================================== *)
(** ** The similarity score *)
(* ===================================================================== *)

(** C6. When the embedding of either question has norm 0, the entry point
    returns normally and the cosine similarity, column 22 of the vector, is
    0. *)
Theorem zero_norm_embedding_scores_zero (cfg : Config) (a b : pystr) :
  norm (embed cfg (normalize cfg a)) = 0%R
  \/ norm (embed cfg (normalize cfg b)) = 0%R ->
  exists query message : value,
    Helper.query_point_creator cfg a b = Ok (VTuple [query; message])
    /\ getitem2 query 0 22 = Ok 0%R
    /\ score cfg a b = 0%R.
Proof.
  intros H. apply cosine_similarity_zero_norm in H.
  rewrite <- score_is_cosine in H.
  exists (VArray2 [compute_features cfg a b]),
    (VStr (result_message cfg a b)).
  split; [reflexivity | split; [|exact H]].
  rewrite <- H. reflexivity.
Qed.

Lemma zero_norm_embedding_scores_zero_witness :
  exists query message : value,
    Helper.query_point_creator sample_config question_c question_a
    = Ok (VTuple [query; message])
    /\ getitem2 query 0 22 = Ok 0%R
    /\ score sample_config question_c question_a = 0%R.
Proof.
  apply (zero_norm_embedding_scores_zero sample_config question_c question_a).
  left. apply norm_embed_zero. reflexivity.
Defined.

(** C7. Comparing a question with itself gives a cosine similarity of 1
    when the question has a token of the vocabulary, and of 0 when it has
    none. *)
Theorem self_similarity_is_one_or_zero (cfg : Config) (a : pystr) :
  score cfg a a
  = (if has_vocabulary_token cfg (normalize cfg a) then 1 else 0)%R
  /\ index (compute_features cfg a a) 22 = Ok (score cfg a a).
Proof.
  split; [|reflexivity].
  rewrite score_is_cosine.
  destruct (has_vocabulary_token cfg (normalize cfg a)) eqn:E.
  - apply cosine_similarity_self. intros H.
    apply norm_embed_zero in H. congruence.
  - apply cosine_similarity_zero_norm. left.
    apply norm_embed_zero. exact E.
Qed.

Lemma self_similarity_is_one_or_zero_witness :
  score sample_config question_a question_a = 1%R
  /\ score sample_config question_c question_c = 0%R.
Proof.
  split.
  - exact (proj1 (self_similarity_is_one_or_zero sample_config question_a)).
  - exact (proj1 (self_similarity_is_one_or_zero sample_config question_c)).
Defined.

(* ===================================================================== *)
(** ** Runs of the results section, step by step *)
(* ===================================================================== *)

Section RunSteps.
Variable env : Env.

Lemma bind_emit (A : Type) (e : event) (k : unit -> ui env A) (g : rng env) :
  bind env (emit env e) k g = after_event e (k tt g).
Proof.
  unfold bind, emit, after_event, shown, final_rng.
  destruct (k tt g) as [[out g'] r]. reflexivity.
Qed.

Lemma bind_lift_raised (A B : Type) (e : exn) (k : A -> ui env B)
    (g : rng env) :
  bind env (lift env (Raise e)) k g = ([], g, Raise e).
Proof. reflexivity. Qed.

Lemma bind_draw_ok (A : Type) (loc scale : R) (size : nat)
    (k : list R -> ui env A) (g g' : rng env) (xs : list R) :
  random_normal env loc scale size g = (Ok xs, g') ->
  bind env (draw env loc scale size) k g = k xs g'.
Proof.
  intros H. unfold bind, draw. rewrite H.
  destruct (k xs g') as [[out g''] r]. reflexivity.
Qed.

Lemma bind_draw_raised (A : Type) (loc scale : R) (size : nat)
    (k : list R -> ui env A) (g g' : rng env) (e : exn) :
  random_normal env loc scale size g = (Raise e, g') ->
  bind env (draw env loc scale size) k g = ([], g', Raise e).
Proof. intros H. unfold bind, draw. rewrite H. reflexivity. Qed.

Lemma success_animation_run (g : rng env) :
  success_animation env g
  = ([if LOTTIE_AVAILABLE env
         && answers_with_animation env
              "https://assets9.lottiefiles.com/packages/lf20_jR229a.json"
      then Lottie 150 "success_animation" else Icon], g, Ok tt).
Proof.
  unfold success_animation, load_lottieurl, answers_with_animation.
  destruct (LOTTIE_AVAILABLE env); simpl; [|reflexivity].
  destruct (requests_get env _) as [[status [| |body]]|]; simpl;
    try reflexivity.
  - destruct (status =? 200)%Z; reflexivity.
  - destruct (status =? 200)%Z; reflexivity.
  - destruct (status =? 200)%Z; simpl; [|reflexivity].
    destruct (truthy env body); reflexivity.
Qed.

Lemma sidebar_animation_run (g : rng env) :
  sidebar_animation env g
  = ([if LOTTIE_AVAILABLE env
         && answers_with_animation env
              "https://assets5.lottiefiles.com/packages/lf20_qp1q7mct.json"
      then Lottie 200 "compare_animation" else Icon], g, Ok tt).
Proof.
  unfold sidebar_animation, load_lottieurl, answers_with_animation.
  destruct (LOTTIE_AVAILABLE env); simpl; [|reflexivity].
  destruct (requests_get env _) as [[status [| |body]]|]; simpl;
    try reflexivity.
  - destruct (status =? 200)%Z; reflexivity.
  - destruct (status =? 200)%Z; reflexivity.
  - destruct (status =? 200)%Z; simpl; [|reflexivity].
    destruct (truthy env body); reflexivity.
Qed.

Lemma bind_success_animation (A : Type) (k : unit -> ui env A) (g : rng env) :
  bind env (success_animation env) k g
  = after_event
      (if LOTTIE_AVAILABLE env
          && answers_with_animation env
               "https://assets9.lottiefiles.com/packages/lf20_jR229a.json"
       then Lottie 150 "success_animation" else Icon)
      (k tt g).
Proof.
  unfold bind. rewrite success_animation_run.
  unfold after_event, shown, final_rng.
  destruct (k tt g) as [[out g'] r]. reflexivity.
Qed.


Lemma bind_run (A B : Type) (m : ui env A) (k : A -> ui env B)
    (g g' : rng env) (out : list event) (a : A) :
  m g = (out, g', Ok a) ->
  bind env m k g
  = (out ++ shown (k a g'), final_rng (k a g'), snd (k a g')).
Proof.
  intros H. unfold bind. rewrite H. unfold shown, final_rng.
  destruct (k a g') as [[out' g''] r]. reflexivity.
Qed.

Lemma bind_run_raised (A B : Type) (m : ui env A) (k : A -> ui env B)
    (g g' : rng env) (out : list event) (e : exn) :
  m g = (out, g', Raise e) -> bind env m k g = (out, g', Raise e).
Proof. intros H. unfold bind. rewrite H. reflexivity. Qed.

Lemma getslice2_row (rows : list (list R)) (row : list R) (lo hi : nat) :
  nth_error rows 0 = Some row ->
  getslice2 (VArray2 rows) 0 lo hi = Ok (slice row lo hi).
Proof. intros H. unfold getslice2, index. rewrite H. reflexivity. Qed.

Lemma index_front (row : list R) (c : R) (i : nat) :
  nth_error row 22 = Some c -> i < 3 ->
  index (slice row 0 3) i = Ok (nth i row 0%R).
Proof.
  intros Hc Hi.
  do 3 (destruct row as [|? row]; [discriminate Hc|]).
  destruct i as [|[|[|i]]]; try reflexivity. lia.
Qed.

Lemma feature_comparison_tab_run (rows : list (list R)) (row : list R)
    (g : rng env) :
  nth_error rows 0 = Some row ->
  feature_comparison_tab env (VArray2 rows) g
  = (feature_comparison_shown row, g, Ok tt).
Proof.
  intros H. unfold feature_comparison_tab.
  rewrite !(getslice2_row _ _ _ _ H), !bind_lift_ok, bind_emit. reflexivity.
Qed.

Lemma raw_data_tab_run (rows : list (list R)) (row : list R) (c : R)
    (g : rng env) :
  nth_error rows 0 = Some row ->
  raw_data_tab env (VArray2 rows) c g = (raw_data_shown row c, g, Ok tt).
Proof.
  intros H. unfold raw_data_tab.
  rewrite bind_emit, !(getslice2_row _ _ _ _ H), !bind_lift_ok.
  rewrite !bind_emit. reflexivity.
Qed.

Lemma visualization_tab_run (rows : list (list R)) (row : list R) (c : R)
    (g : rng env) :
  nth_error rows 0 = Some row -> nth_error row 22 = Some c ->
  visualization_tab env (VArray2 rows) g
  = match sample_points env row g with
    | (Ok (x, y, z), g') => (visualization_shown row x y z, g', Ok tt)
    | (Raise e, g') => ([], g', Raise e)
    end.
Proof.
  intros H Hc. unfold visualization_tab, sample_points.
  rewrite (getslice2_row _ _ _ _ H), bind_lift_ok. cbv zeta.
  rewrite (index_front row c 0 Hc) by lia. rewrite bind_lift_ok.
  destruct (random_normal env (nth 0 row 0%R) _ 50 g) as [[x|e] g1] eqn:Hx.
  2:{ rewrite (bind_draw_raised _ _ _ _ _ _ _ _ Hx). reflexivity. }
  rewrite (bind_draw_ok _ _ _ _ _ _ _ _ Hx).
  rewrite (index_front row c 1 Hc) by lia. rewrite bind_lift_ok.
  destruct (random_normal env (nth 1 row 0%R) _ 50 g1) as [[y|e] g2] eqn:Hy.
  2:{ rewrite (bind_draw_raised _ _ _ _ _ _ _ _ Hy). reflexivity. }
  rewrite (bind_draw_ok _ _ _ _ _ _ _ _ Hy).
  rewrite (index_front row c 2 Hc) by lia. rewrite bind_lift_ok.
  destruct (random_normal env (nth 2 row 0%R) _ 50 g2) as [[z|e] g3] eqn:Hz.
  2:{ rewrite (bind_draw_raised _ _ _ _ _ _ _ _ Hz). reflexivity. }
  rewrite (bind_draw_ok _ _ _ _ _ _ _ _ Hz).
  rewrite bind_emit. reflexivity.
Qed.

(** The run of lines 256-426 for a query with an entry at row 0, column
    22. *)
Lemma details_run (rows : list (list R)) (row : list R) (c cosine_sim : R)
    (g : rng env) :
  nth_error rows 0 = Some row -> nth_error row 22 = Some c ->
  details env (VArray2 rows) cosine_sim g
  = match sample_points env row g with
    | (Ok (x, y, z), g') =>
        (animation_shown env
         :: Tabs ["Feature Comparison"; "3D Visualization"; "Raw Data"]
         :: feature_comparison_shown row ++ visualization_shown row x y z
            ++ raw_data_shown row cosine_sim ++ [Markdown "/result-card"],
         g', Ok tt)
    | (Raise e, g') =>
        (animation_shown env
         :: Tabs ["Feature Comparison"; "3D Visualization"; "Raw Data"]
         :: feature_comparison_shown row,
         g', Raise e)
    end.
Proof.
  intros H Hc. unfold details.
  rewrite bind_success_animation, bind_emit.
  rewrite (bind_run _ _ _ _ _ _ _ _ (feature_comparison_tab_run rows row g H)).
  pose proof (visualization_tab_run rows row c g H Hc) as Hv.
  destruct (sample_points env row g) as [[[[x y] z]|e] g'].
  - rewrite (bind_run _ _ _ _ _ _ _ _ Hv).
    rewrite (bind_run _ _ _ _ _ _ _ _
               (raw_data_tab_run rows row cosine_sim g' H)).
    reflexivity.
  - rewrite (bind_run_raised _ _ _ _ _ _ _ _ Hv). reflexivity.
Qed.

End RunSteps.

(** The whole run of the results section when both questions are present:
    what it shows, the state it leaves the generator in, and how it ends. *)
Lemma analysis_run (env : Env) (q1 q2 : pystr) (t : R) (g : rng env) :
  is_empty (strip q1) || is_empty (strip q2) = false ->
  results_section env true q1 q2 t g
  = match read_similarity env q1 q2 with
    | Raise e => (before_the_read q1 q2, g, Raise e)
    | Ok (query, c) =>
        (before_the_read q1 q2 ++ result_card c t
         ++ shown (details env query c g),
         final_rng (details env query c g), snd (details env query c g))
    end.
Proof.
  intros Hblank. unfold results_section. rewrite Hblank.
  unfold analyze, read_similarity. rewrite !bind_emit.
  destruct (App.query_point_creator env q1 q2) as [returned|e].
  2:{ rewrite bind_lift_raised. reflexivity. }
  rewrite bind_lift_ok.
  destruct (unpack2 returned) as [[query message]|e].
  2:{ rewrite bind_lift_raised. reflexivity. }
  rewrite bind_lift_ok. cbv zeta. simpl fst.
  destruct (getitem2 query 0 22) as [c|e].
  2:{ rewrite bind_lift_raised. reflexivity. }
  rewrite bind_lift_ok, !bind_emit. reflexivity.
Qed.

(** A query that has an entry at row 0, column 22 is a 2-D array whose
    row 0 has at least 23 columns. *)
Lemma readable_query (query : value) (c : R) :
  getitem2 query 0 22 = Ok c ->
  exists (rows : list (list R)) (row : list R),
    query = VArray2 rows /\ nth_error rows 0 = Some row
    /\ nth_error row 22 = Some c.
Proof.
  destruct query as [x|x|s|items|data|rows]; simpl; try discriminate.
  unfold index. destruct (nth_error rows 0) as [row|] eqn:Hrow;
    [|discriminate].
  destruct (nth_error row 22) as [c'|] eqn:Hc; [|discriminate].
  intros H. injection H as ->. exists rows, row. repeat split; assumption.
Qed.

Lemma read_similarity_ok (env : Env) (q1 q2 : pystr) (query : value)
    (c : R) :
  read_similarity env q1 q2 = Ok (query, c) -> getitem2 query 0 22 = Ok c.
Proof.
  unfold read_similarity.
  destruct (App.query_point_creator env q1 q2) as [returned|e];
    [|discriminate].
  destruct (unpack2 returned) as [[query' message]|e]; [|discriminate].
  destruct (getitem2 query' 0 22) as [c'|e] eqn:Hc; [|discriminate].
  intros H. injection H as -> ->. exact Hc.
Qed.

Lemma full_slices (row : list R) (c : R) :
  nth_error row 22 = Some c ->
  length (slice row 0 7) = 7 /\ length (slice row 7 15) = 8
  /\ length (slice row 15 18) = 3 /\ length (slice row 18 22) = 4
  /\ slice row 0 7 ++ slice row 7 15 ++ slice row 15 18 ++ slice row 18 22
     ++ [c] = firstn 23 row.
Proof.
  intros Hc.
  do 22 (destruct row as [|? row]; [discriminate Hc|]).
  destruct row as [|c' row]; [discriminate Hc|].
  injection Hc as ->. repeat split.
Qed.

(* ===================================================================== *)
(** ** Further properties of the script *)
(* ===================================================================== *)

(** X1. The helper is called at most once per run: exactly when the button
    was pressed and neither question strips to the empty string, with the
    two strings as typed (not stripped), and whatever the helper then
    returns or raises. *)
Theorem helper_is_called_exactly_when_both_questions_are_present
    (env : Env) (compare_button : bool) (q1 q2 : pystr) (t : R)
    (g : rng env) :
  helper_calls (shown (results_section env compare_button q1 q2 t g))
  = if compare_button && negb (is_empty (strip q1) || is_empty (strip q2))
    then [(q1, q2)] else [].
Proof.
  destruct compare_button; [|reflexivity].
  destruct (is_empty (strip q1) || is_empty (strip q2)) eqn:Hblank.
  - unfold results_section. rewrite Hblank. reflexivity.
  - rewrite (analysis_run env q1 q2 t g Hblank).
    destruct (read_similarity env q1 q2) as [[query c]|e]; [|reflexivity].
    unfold helper_calls, shown at 1. cbn [fst].
    rewrite !flat_map_app, (details_make_no_call env query c g).
    reflexivity.
Qed.

(** X2. When the helper raises, or returns something that does not unpack
    into two, or whose first part has no entry at row 0, column 22, the run
    ends with that exception right after the call: it has shown the
    spinner only, no success message, score or verdict, and has not touched
    the random generator. *)
Theorem failed_read_ends_the_run_before_any_result
    (env : Env) (q1 q2 : pystr) (t : R) (g : rng env) (e : exn) :
  is_empty (strip q1) || is_empty (strip q2) = false ->
  read_similarity env q1 q2 = Raise e ->
  results_section env true q1 q2 t g
  = ([Spinner "Analyzing questions..."; Sleep 1; HelperCall q1 q2],
     g, Raise e).
Proof.
  intros Hblank Hread.
  rewrite (analysis_run env q1 q2 t g Hblank), Hread. reflexivity.
Qed.

Lemma failed_read_ends_the_run_before_any_result_witness :
  results_section (seeded (fun _ _ => Ok (VArray1 [0.5; 0.9]%R))) true
    question_a question_b 0.85 7
  = ([Spinner "Analyzing questions..."; Sleep 1;
      HelperCall question_a question_b], 7, Raise IndexError).
Proof.
  apply (failed_read_ends_the_run_before_any_result
           (seeded (fun _ _ => Ok (VArray1 [0.5; 0.9]%R)))
           question_a question_b 0.85%R 7 IndexError); reflexivity.
Defined.

(** The exception of a failed read, by what the helper returned: a pair
    whose first part is a numpy scalar or a 1-D array (IndexError) or a
    Python float, a string or a tuple (TypeError), and a value that does
    not unpack into two (ValueError, or TypeError when it is no
    sequence). *)
Example exceptions_of_a_failed_read :
  let read := fun returned =>
    read_similarity (fixed_helper (Ok returned)) question_a question_b in
  read (VTuple [VFloat64 0.9; VStr (of_string "done")]) = Raise IndexError
  /\ read (VTuple [VArray1 [0.5; 0.9]%R; VStr []]) = Raise IndexError
  /\ read (VTuple [VArray2 [[0.5; 0.9]%R]; VStr []]) = Raise IndexError
  /\ read (VTuple [VFloat 0.9; VStr []]) = Raise TypeError
  /\ read (VTuple [VTuple []; VStr []]) = Raise TypeError
  /\ read (VArray2 [[0.5; 0.9]%R]) = Raise ValueError
  /\ read (VArray1 [0.5; 0.9; 0.1]%R) = Raise ValueError
  /\ read (VFloat64 0.9) = Raise TypeError.
Proof. repeat split. Qed.

(** X3. A run that read the similarity [c] from row 0 of the query and
    whose three samplings succeeded ends normally. It has shown, in this
    order: the spinner, the result card with the meter and the verdict for
    [c], the animation or icon, the tabs, the bar and radar charts, the 3-D
    scatter with the query point (row[0], row[1], row[2]), the four tables
    and the metric for the same [c], and the closing markup; the generator
    is left as the third sampling left it. *)
Theorem a_run_that_samples_shows_every_tab
    (env : Env) (q1 q2 : pystr) (t : R) (g g' : rng env)
    (rows : list (list R)) (row x y z : list R) (c : R) :
  is_empty (strip q1) || is_empty (strip q2) = false ->
  read_similarity env q1 q2 = Ok (VArray2 rows, c) ->
  nth_error rows 0 = Some row ->
  sample_points env row g = (Ok (x, y, z), g') ->
  results_section env true q1 q2 t g
  = (before_the_read q1 q2 ++ result_card c t
     ++ animation_shown env
     :: Tabs ["Feature Comparison"; "3D Visualization"; "Raw Data"]
     :: feature_comparison_shown row ++ visualization_shown row x y z
        ++ raw_data_shown row c ++ [Markdown "/result-card"],
     g', Ok tt).
Proof.
  intros Hblank Hread Hrow Hsample.
  rewrite (analysis_run env q1 q2 t g Hblank), Hread.
  pose proof (read_similarity_ok env q1 q2 _ c Hread) as Hc.
  unfold getitem2, index in Hc. rewrite Hrow in Hc.
  destruct (nth_error row 22) as [c'|] eqn:Hc'; [|discriminate].
  rewrite (details_run env rows row c' c g Hrow Hc'), Hsample.
  reflexivity.
Qed.

Lemma a_run_that_samples_shows_every_tab_witness :
  let row := repeat 0%R 22 ++ [0.9%R] in
  let x := repeat 0%R 50 in
  results_section (fixed_helper (Ok (sample_return 0 0.9))) true
    question_a question_b 0.85 tt
  = (before_the_read question_a question_b ++ result_card 0.9 0.85
     ++ animation_shown (fixed_helper (Ok (sample_return 0 0.9)))
     :: Tabs ["Feature Comparison"; "3D Visualization"; "Raw Data"]
     :: feature_comparison_shown row ++ visualization_shown row x x x
        ++ raw_data_shown row 0.9 ++ [Markdown "/result-card"],
     tt, Ok tt).
Proof.
  apply (a_run_that_samples_shows_every_tab
           (fixed_helper (Ok (sample_return 0 0.9)))
           question_a question_b 0.85%R tt tt
           [repeat 0%R 22 ++ [0.9%R]] (repeat 0%R 22 ++ [0.9%R])
           (repeat 0%R 50) (repeat 0%R 50) (repeat 0%R 50) 0.9%R);
    reflexivity.
Defined.



(** Adjacent slices join into one slice. *)
Lemma slice_app (A : Type) (l : list A) (lo mid hi : nat) :
  lo <= mid -> mid <= hi ->
  slice l lo mid ++ slice l mid hi = slice l lo hi.
Proof.
  intros H1 H2. unfold slice.
  replace (skipn mid l) with (skipn (mid - lo) (skipn lo l))
    by (rewrite skipn_skipn; f_equal; lia).
  replace (hi - lo) with ((mid - lo) + (hi - mid)) by lia.
  generalize (skipn lo l) as l'. generalize (mid - lo) as a.
  induction a as [|a IH]; intros l'; [reflexivity|].
  destruct l' as [|x l']; simpl.
  - rewrite firstn_nil. reflexivity.
  - f_equal. apply IH.
Qed.

Lemma slice_length (A : Type) (l : list A) (lo hi : nat) :
  length (slice l lo hi) = Nat.min (hi - lo) (length l - lo).
Proof. unfold slice. rewrite length_firstn, length_skipn. reflexivity. Qed.

(** X5. For a 2-D query with a row 0, whatever its width, the raw-data tab
    ends normally and leaves the generator alone. Its four tables hold, read
    in column order, exactly the first 22 columns of the row, each column
    once; a table gets fewer values than labels only when the row ends
    early. *)
Theorem raw_data_tab_shows_the_first_22_columns_once
    (env : Env) (rows : list (list R)) (row : list R) (cosine_sim : R)
    (g : rng env) :
  nth_error rows 0 = Some row ->
  let run := raw_data_tab env (VArray2 rows) cosine_sim g in
  raised run = None /\ final_rng run = g
  /\ dataframes (shown run)
     = [(basic_labels, slice row 0 7); (length_labels, slice row 15 18);
        (token_labels, slice row 7 15); (fuzzy_labels, slice row 18 22)]
  /\ slice row 0 7 ++ slice row 7 15 ++ slice row 15 18 ++ slice row 18 22
     = firstn 22 row
  /\ length (slice row 0 7) = Nat.min 7 (length row)
  /\ length (slice row 7 15) = Nat.min 8 (length row - 7)
  /\ length (slice row 15 18) = Nat.min 3 (length row - 15)
  /\ length (slice row 18 22) = Nat.min 4 (length row - 18).
Proof.
  intros Hrow. cbv zeta. rewrite (raw_data_tab_run env rows row _ g Hrow).
  split; [reflexivity | split; [reflexivity | split; [reflexivity|]]].
  split.
  - rewrite (slice_app R row 15 18 22), (slice_app R row 7 15 22),
      (slice_app R row 0 7 22) by lia.
    unfold slice. reflexivity.
  - rewrite !slice_length. simpl. rewrite Nat.sub_0_r. repeat split.
Qed.

Lemma raw_data_tab_shows_the_first_22_columns_once_witness :
  let env := fixed_helper (Raise TypeError) in
  let row := [1; 2; 3; 4; 5; 6; 7; 8; 9]%R in
  let run := raw_data_tab env (VArray2 [row]) 0 tt in
  raised run = None /\ final_rng run = tt
  /\ dataframes (shown run)
     = [(basic_labels, slice row 0 7); (length_labels, slice row 15 18);
        (token_labels, slice row 7 15); (fuzzy_labels, slice row 18 22)]
  /\ slice row 0 7 ++ slice row 7 15 ++ slice row 15 18 ++ slice row 18 22
     = firstn 22 row
  /\ length (slice row 0 7) = Nat.min 7 (length row)
  /\ length (slice row 7 15) = Nat.min 8 (length row - 7)
  /\ length (slice row 15 18) = Nat.min 3 (length row - 15)
  /\ length (slice row 18 22) = Nat.min 4 (length row - 18).
Proof.
  apply (raw_data_tab_shows_the_first_22_columns_once
           (fixed_helper (Raise TypeError))
           [[1; 2; 3; 4; 5; 6; 7; 8; 9]%R] [1; 2; 3; 4; 5; 6; 7; 8; 9]%R
           0%R tt).
  reflexivity.
Defined.

(** X6. In every run of the results section, whatever the inputs and the
    helper, each bar chart, radar chart and table that is shown has as many
    values as labels: the charts come after the read of column 22, so the
    row they slice has at least 23 columns. *)
Theorem charts_and_tables_are_never_misaligned
    (env : Env) (compare_button : bool) (q1 q2 : pystr) (t : R)
    (g : rng env) :
  flat_map misaligned_of
    (shown (results_section env compare_button q1 q2 t g)) = [].
Proof.
  destruct compare_button; [|reflexivity].
  destruct (is_empty (strip q1) || is_empty (strip q2)) eqn:Hblank.
  { unfold results_section. rewrite Hblank. reflexivity. }
  rewrite (analysis_run env q1 q2 t g Hblank).
  destruct (read_similarity env q1 q2) as [[query c]|e] eqn:Hread;
    [|reflexivity].
  destruct (readable_query query c (read_similarity_ok env q1 q2 query c Hread))
    as (rows & row & -> & Hrow & Hc).
  rewrite (details_run env rows row c c g Hrow Hc).
  destruct (full_slices row c Hc) as (H7 & H8 & H3 & H4 & _).
  assert (Hbar : forall title,
             misaligned_of (BarChart token_labels (slice row 7 15) title) = []).
  { intros title. unfold misaligned_of. rewrite H8. reflexivity. }
  assert (Hradar : misaligned_of
                     (RadarChart (slice row 18 22) fuzzy_labels 0 100) = []).
  { unfold misaligned_of. rewrite H4. reflexivity. }
  assert (Htab : flat_map misaligned_of (raw_data_shown row c) = []).
  { unfold raw_data_shown. cbn [flat_map misaligned_of].
    rewrite H7, H8, H3, H4. reflexivity. }
  assert (Hfirst : flat_map misaligned_of (feature_comparison_shown row) = []).
  { unfold feature_comparison_shown. cbn [flat_map].
    rewrite Hbar, Hradar. reflexivity. }
  assert (Hanim : misaligned_of (animation_shown env) = []).
  { unfold animation_shown. destruct (_ && _); reflexivity. }
  destruct (sample_points env row g) as [[[[x y] z]|e] g'];
    unfold shown; cbn [fst]; rewrite !flat_map_app; cbn [flat_map];
    rewrite ?flat_map_app, Hanim, Hfirst, ?Htab; reflexivity.
Qed.

(** X7. With a threshold the slider can give (0.5 to 1.0): a similarity in
    the red band of the meter (below 0.3) is never labelled duplicates; a
    similarity labelled duplicates is shown in the yellow or green band, and
    in the green band (0.7 and above) when the threshold is at least 0.7, as
    the default 0.85 is; and at the slider's maximum no similarity up to 1
    is labelled duplicates. *)
Theorem verdict_agrees_with_meter_colour (c t : R) :
  (slider_min <= t <= slider_max)%R ->
  ((c < 0.3)%R ->
   similarity_meter c = SimilarityMeter (c * 100) "#ff4e50" "#f9d423" c
   /\ judge c t = NotDuplicates)
  /\ (judge c t = Duplicates ->
      similarity_meter c = SimilarityMeter (c * 100) "#ffd452" "#1cb142" c
      \/ similarity_meter c = SimilarityMeter (c * 100) "#1cb142" "#0f9b0f" c)
  /\ (judge c t = Duplicates -> (0.7 <= t)%R ->
      similarity_meter c = SimilarityMeter (c * 100) "#1cb142" "#0f9b0f" c)
  /\ ((c <= 1)%R -> judge c slider_max = NotDuplicates).
Proof.
  unfold slider_min, slider_max, judge, similarity_meter. intros Ht.
  repeat split.
  - destruct (Rlt_dec c 0.3); [reflexivity | contradiction].
  - destruct (Rgt_dec c t); [lra | reflexivity].
  - destruct (Rgt_dec c t); [|discriminate]. intros _.
    destruct (Rlt_dec c 0.3); [lra|].
    destruct (Rlt_dec c 0.7); [left | right]; reflexivity.
  - destruct (Rgt_dec c t); [|discriminate]. intros _ Ht7.
    destruct (Rlt_dec c 0.3); [lra|].
    destruct (Rlt_dec c 0.7); [lra | reflexivity].
  - intros Hc. destruct (Rgt_dec c 1); [lra | reflexivity].
Qed.

Lemma verdict_agrees_with_meter_colour_witness :
  ((0.9 < 0.3)%R ->
   similarity_meter 0.9 = SimilarityMeter (0.9 * 100) "#ff4e50" "#f9d423" 0.9
   /\ judge 0.9 slider_default = NotDuplicates)
  /\ (judge 0.9 slider_default = Duplicates ->
      similarity_meter 0.9
      = SimilarityMeter (0.9 * 100) "#ffd452" "#1cb142" 0.9
      \/ similarity_meter 0.9
         = SimilarityMeter (0.9 * 100) "#1cb142" "#0f9b0f" 0.9)
  /\ (judge 0.9 slider_default = Duplicates -> (0.7 <= slider_default)%R ->
      similarity_meter 0.9
      = SimilarityMeter (0.9 * 100) "#1cb142" "#0f9b0f" 0.9)
  /\ ((0.9 <= 1)%R -> judge 0.9 slider_max = NotDuplicates).
Proof.
  apply (verdict_agrees_with_meter_colour 0.9 slider_default).
  unfold slider_min, slider_max, slider_default. lra.
Defined.

(** X8. The verdict is monotone: a pair labelled duplicates stays so when
    its similarity rises or the threshold is lowered, and a pair labelled
    not duplicates stays so when its similarity drops or the threshold is
    raised. *)
Theorem verdict_is_monotone (c c' t t' : R) :
  (c <= c')%R -> (t' <= t)%R ->
  (judge c t = Duplicates -> judge c' t' = Duplicates)
  /\ (judge c' t' = NotDuplicates -> judge c t = NotDuplicates).
Proof.
  intros Hc Ht. unfold judge.
  destruct (Rgt_dec c t), (Rgt_dec c' t'); split; intros H;
    try reflexivity; try discriminate; lra.
Qed.

Lemma verdict_is_monotone_witness :
  (judge 0.86 0.85 = Duplicates -> judge 0.9 0.5 = Duplicates)
  /\ (judge 0.9 0.5 = NotDuplicates -> judge 0.86 0.85 = NotDuplicates).
Proof.
  apply (verdict_is_monotone 0.86 0.9 0.85 0.5); lra.
Defined.

(** X9. [load_lottieurl] never raises, and what it returns is never a
    null body: it returns a body exactly when the Lottie component is
    available and the request for the address answered with status 200 and
    a body that decodes to a JSON value other than null. A request that
    raises, any other status, a body that does not decode and the JSON null
    all give None, whatever the decoded body of a failed answer is. *)
Theorem load_lottieurl_returns_a_body_only_for_status_200
    (env : Env) (url : string) (body : json env) :
  (load_lottieurl env url = Some body
   <-> LOTTIE_AVAILABLE env = true
       /\ requests_get env url = Some (200%Z, JsonValue body))
  /\ (load_lottieurl env url = None
      <-> LOTTIE_AVAILABLE env = false
          \/ requests_get env url = None
          \/ (exists status d,
                 requests_get env url = Some (status, d)
                 /\ (status <> 200%Z \/ d = JsonError \/ d = JsonNull))).
Proof.
  unfold load_lottieurl.
  destruct (LOTTIE_AVAILABLE env); simpl.
  2:{ split; split; try discriminate; try (intros [H _]; discriminate).
      - intros _. left. reflexivity.
      - reflexivity. }
  destruct (requests_get env url) as [[status d]|].
  2:{ split; split; try discriminate; try (intros [_ H]; discriminate).
      - intros _. right. left. reflexivity.
      - reflexivity. }
  destruct (status =? 200)%Z eqn:Hs; simpl.
  - apply Z.eqb_eq in Hs. subst status. split; split.
    + destruct d as [| |j]; try discriminate.
      intros H. injection H as ->. split; reflexivity.
    + intros [_ H]. injection H as ->. reflexivity.
    + destruct d as [| |j]; try discriminate; intros _; right; right;
        exists 200%Z; eexists; (split; [reflexivity|]); right;
        [left | right]; reflexivity.
    + intros [H|[H|(status & d' & H & Hd)]]; try discriminate.
      injection H as <- <-.
      destruct Hd as [Hd|[->| ->]]; [contradiction | reflexivity..].
  - apply Z.eqb_neq in Hs. split; split; try discriminate.
    + intros [_ H]. injection H as -> _. contradiction.
    + intros _. right. right. exists status, d.
      split; [reflexivity | left; exact Hs].
    + reflexivity.
Qed.

(** X10. The animation steps of the sidebar and of the result card cannot
    break the page: each shows exactly one element, the animation when the
    Lottie component is available and the request answered with status 200
    and a body that counts as true, else the icon; neither raises nor
    touches the random generator. *)
Theorem animations_fall_back_to_the_icon (env : Env) (g : rng env) :
  success_animation env g
  = ([if LOTTIE_AVAILABLE env
         && answers_with_animation env
              "https://assets9.lottiefiles.com/packages/lf20_jR229a.json"
      then Lottie 150 "success_animation" else Icon], g, Ok tt)
  /\ sidebar_animation env g
     = ([if LOTTIE_AVAILABLE env
            && answers_with_animation env
                 "https://assets5.lottiefiles.com/packages/lf20_qp1q7mct.json"
         then Lottie 200 "compare_animation" else Icon], g, Ok tt).
Proof.
  split; [apply success_animation_run | apply sidebar_animation_run].
Qed.

(** X11. With the button pressed, the run consists of the warning alone
    (ending normally, the generator untouched) exactly when one of the two
    questions is empty or made of whitespace characters only. *)
Theorem warning_is_shown_exactly_for_whitespace_only_questions
    (env : Env) (q1 q2 : pystr) (t : R) (g : rng env) :
  results_section env true q1 q2 t g
  = ([Warning "Please enter both questions before comparing."], g, Ok tt)
  <-> forallb isspace q1 = true \/ forallb isspace q2 = true.
Proof.
  rewrite <- !strip_blank, <- orb_true_iff.
  destruct (is_empty (strip q1) || is_empty (strip q2)) eqn:Hblank.
  - unfold results_section. rewrite Hblank. split; reflexivity.
  - rewrite (analysis_run env q1 q2 t g Hblank). split; [|discriminate].
    destruct (read_similarity env q1 q2) as [[query c]|e]; discriminate.
Qed.

(** X12. The colour values of the 3-D scatter, the distances of the samples
    from the query point, are one per sample and never negative; a sample
    that lies on the query point has distance 0. *)
Theorem distances_are_one_per_sample_and_not_negative
    (x y z : list R) (b0 b1 b2 : R) :
  length (distances x y z b0 b1 b2)
  = Nat.min (length x) (Nat.min (length y) (length z))
  /\ Forall (fun d => 0 <= d)%R (distances x y z b0 b1 b2)
  /\ distances (b0 :: x) (b1 :: y) (b2 :: z) b0 b1 b2
     = 0%R :: distances x y z b0 b1 b2.
Proof.
  split; [|split].
  - revert y z. induction x as [|xi x IH]; intros [|yi y] [|zi z];
      simpl; try lia.
    rewrite IH. reflexivity.
  - revert y z. induction x as [|xi x IH]; intros [|yi y] [|zi z];
      simpl; try apply Forall_nil.
    apply Forall_cons; [apply sqrt_pos | apply IH].
  - simpl. f_equal.
    replace ((b0 - b0) * ((b0 - b0) * 1) + (b1 - b1) * ((b1 - b1) * 1)
             + (b2 - b2) * ((b2 - b2) * 1))%R with 0%R by ring.
    apply sqrt_0.
Qed.

(** X13. The threshold reaches nothing but the verdict box: two runs that
    differ only in the threshold show the same events apart from the
    verdict, leave the generator in the same state and end the same way. *)
Theorem threshold_changes_only_the_verdict
    (env : Env) (compare_button : bool) (q1 q2 : pystr) (t t' : R)
    (g : rng env) :
  let run := results_section env compare_button q1 q2 t g in
  let run' := results_section env compare_button q1 q2 t' g in
  without_verdict (shown run) = without_verdict (shown run')
  /\ final_rng run = final_rng run' /\ snd run = snd run'.
Proof.
  cbv zeta. destruct compare_button; [|repeat split].
  destruct (is_empty (strip q1) || is_empty (strip q2)) eqn:Hblank.
  { unfold results_section. rewrite Hblank. repeat split. }
  rewrite !(analysis_run env q1 q2 _ g Hblank).
  destruct (read_similarity env q1 q2) as [[query c]|e]; [|repeat split].
  split; [|split; reflexivity].
  unfold shown at 1 3. cbn [fst]. unfold without_verdict.
  rewrite !filter_app. reflexivity.
Qed.

(* ===================================================================== *)
(** ** The helper's entry point as the script uses it *)
(* ===================================================================== *)

(** The read of lines 208-211 succeeds exactly when the helper returned a
    value that unpacks into two, the first of them with an entry at row 0,
    column 22. *)
Lemma read_similarity_iff (env : Env) (q1 q2 : pystr) (query : value)
    (c : R) :
  read_similarity env q1 q2 = Ok (query, c)
  <-> exists returned message : value,
        App.query_point_creator env q1 q2 = Ok returned
        /\ unpack2 returned = Ok (query, message)
        /\ getitem2 query 0 22 = Ok c.
Proof.
  unfold read_similarity. split.
  - destruct (App.query_point_creator env q1 q2) as [returned|e];
      [|discriminate].
    destruct (unpack2 returned) as [[query' message]|e] eqn:Hpair;
      [|discriminate].
    destruct (getitem2 query' 0 22) as [c'|e] eqn:Hc; [|discriminate].
    intros H. injection H as -> ->. exists returned, message.
    exact (conj eq_refl (conj Hpair Hc)).
  - intros (returned & message & -> & -> & ->). reflexivity.
Qed.

(** The scores and the verdicts of a run with both questions present are
    those of the read. *)
Lemma results_follow_the_read (env : Env) (q1 q2 : pystr) (t : R)
    (g : rng env) :
  is_empty (strip q1) || is_empty (strip q2) = false ->
  let out := shown (results_section env true q1 q2 t g) in
  scores out
  = match read_similarity env q1 q2 with
    | Ok (_, c) => [c]
    | Raise _ => []
    end
  /\ verdicts out
     = match read_similarity env q1 q2 with
       | Ok (_, c) => [judge c t]
       | Raise _ => []
       end
  /\ helper_calls out = [(q1, q2)].
Proof.
  intros Hblank. cbv zeta. rewrite (analysis_run env q1 q2 t g Hblank).
  destruct (read_similarity env q1 q2) as [[query c]|e];
    [|repeat split].
  unfold shown at 1 3 5. cbn [fst].
  unfold scores, verdicts, helper_calls. rewrite !flat_map_app.
  rewrite (details_show_no_verdict env query c g),
    (details_show_no_score env query c g),
    (details_make_no_call env query c g).
  repeat split.
Qed.

(** Unpacking a bare 1-D array gives numpy scalars, or fails; either way
    nothing can be read at row 0, column 22. *)
Lemma read_of_a_bare_vector (env : Env) (q1 q2 : pystr) (data : list R) :
  App.query_point_creator env q1 q2 = Ok (VArray1 data) ->
  read_similarity env q1 q2
  = Raise (if (length data =? 2)%nat then IndexError else ValueError).
Proof.
  intros H. unfold read_similarity. rewrite H.
  destruct data as [|a [|b [|c data]]]; reflexivity.
Qed.





(** C2, as stated, does not hold of the script: whatever operation stands
    behind the call, when it returns the bare feature vector the script
    reads no similarity from it and shows no score and no verdict.  So for
    a vector of 23 values whose index 22 is 0.9: the run ends with
    ValueError where the vector is unpacked. *)
Lemma no_similarity_is_read_from_a_bare_vector :
  (forall (env : Env) (q1 q2 : pystr) (t : R) (g : rng env)
      (data : list R),
      App.query_point_creator env q1 q2 = Ok (VArray1 data) ->
      let out := shown (results_section env true q1 q2 t g) in
      scores out = [] /\ meter_widths out = [] /\ verdicts out = [])
  /\ (let fv := repeat 0.5%R 22 ++ [0.9%R] in
      let run :=
        results_section (fixed_helper (Ok (VArray1 fv))) true question_a
          question_b 0.85 tt in
      length fv = 23 /\ index fv 22 = Ok 0.9%R
      /\ helper_calls (shown run) = [(question_a, question_b)]
      /\ scores (shown run) = []
      /\ raised run = Some ValueError).
Proof.
  split; [|repeat split].
  intros env q1 q2 t g data Hcall. cbv zeta.
  destruct (is_empty (strip q1) || is_empty (strip q2)) eqn:Hblank.
  { unfold results_section. rewrite Hblank. repeat split. }
  rewrite (analysis_run env q1 q2 t g Hblank).
  rewrite (read_of_a_bare_vector env q1 q2 data Hcall). repeat split.
Qed.

(** C2, amended. With both questions present the script calls
    [helper.query_point_creator] once, with the two questions as entered;
    it unpacks what the call returned into a query and a message and shows
    [query[0, 22]] as the similarity: as the score, as the width of the
    meter (in percent) and in the verdict.  No other number is shown as
    the score. *)
Theorem script_calls_the_helper_once_and_reads_row_0_column_22
    (env : Env) (q1 q2 : pystr) (t : R) (g : rng env) :
  is_empty (strip q1) || is_empty (strip q2) = false ->
  let out := shown (results_section env true q1 q2 t g) in
  helper_calls out = [(q1, q2)]
  /\ (forall (returned query message : value) (c : R),
        App.query_point_creator env q1 q2 = Ok returned ->
        unpack2 returned = Ok (query, message) ->
        getitem2 query 0 22 = Ok c ->
        scores out = [c] /\ meter_widths out = [(c * 100)%R]
        /\ verdicts out = [judge c t])
  /\ (forall c : R,
        In c (scores out) ->
        exists returned query message : value,
          App.query_point_creator env q1 q2 = Ok returned
          /\ unpack2 returned = Ok (query, message)
          /\ getitem2 query 0 22 = Ok c).
Proof.
  intros Hblank. cbv zeta.
  destruct (results_follow_the_read env q1 q2 t g Hblank)
    as (Hscores & _ & Hcalls).
  split; [exact Hcalls|]. split.
  - intros returned query message c Hcall Hpair Hcos.
    destruct (results_of_analysis env q1 q2 t g returned query message c
                Hblank Hcall Hpair Hcos) as (Hv & Hs & Hm & _).
    repeat split; assumption.
  - intros c Hin. rewrite Hscores in Hin.
    destruct (read_similarity env q1 q2) as [[query c']|e] eqn:Hread;
      [|destruct Hin].
    destruct Hin as [->|[]].
    apply read_similarity_iff in Hread.
    destruct Hread as (returned & message & Hcall & Hpair & Hcos).
    exists returned, query, message. repeat split; assumption.
Qed.

Lemma script_calls_the_helper_once_and_reads_row_0_column_22_witness :
  let out :=
    shown (results_section (fixed_helper (Ok (sample_return 0.5 0.9))) true
             question_a question_b 0.85 tt) in
  helper_calls out = [(question_a, question_b)]
  /\ scores out = [0.9%R] /\ meter_widths out = [(0.9 * 100)%R]
  /\ verdicts out = [judge 0.9 0.85].
Proof.
  cbv zeta.
  pose proof (script_calls_the_helper_once_and_reads_row_0_column_22
                (fixed_helper (Ok (sample_return 0.5 0.9)))
                question_a question_b 0.85%R tt eq_refl)
    as (Hcalls & Hread & _).
  cbv zeta in Hcalls, Hread.
  split; [exact Hcalls|].
  apply (Hread (sample_return 0.5 0.9) (sample_query 0.5 0.9)
           (VStr (of_string "done")) 0.9%R); reflexivity.
Defined.
